(** * Document-Complexity: the scoring engine of [app.py]

    A shallow embedding of the table classifier
    ([calculate_table_complexity]), of the three format extractors and of
    the document scorer ([calculate_document_complexity]), followed by the
    properties established about them.

    Python values are modelled as follows.
    - [int] is [Z] (unbounded, as in Python).
    - [float] is IEEE 754 binary64: a finite float is the rational it
      denotes, and every operation rounds its exact result to nearest, ties
      to even ([B64.round]).
    - [str] is the list of its Unicode code points.
    - exceptions are values of [exn]; a call that may raise returns a
      [result].
    What the program takes from the Python runtime, from numpy and from the
    document parsers, and which is not part of the repository, is a
    [Variable] of the section that uses it. *)

From Stdlib Require Import ZArith QArith Qround Qabs Qpower Qreduction.
From Stdlib Require Import SpecFloat List Bool String Ascii Lia Lqa.
Import ListNotations.

(* ================================================================== *)
(** ** binary64 arithmetic *)

Module B64.

Definition prec : Z := 53.
Definition emin : Z := (-1074)%Z.

Open Scope Q_scope.

(** Nearest integer, ties to the even one. *)
Definition rne (x : Q) : Z :=
  let f := Qfloor x in
  match Qcompare (x - inject_Z f) (1 # 2) with
  | Lt => f
  | Gt => (f + 1)%Z
  | Eq => if Z.even f then f else (f + 1)%Z
  end.

(** [ilog2 x] is the integer [k] with [2^k <= x < 2^(k+1)], for [0 < x]. *)
Definition ilog2 (x : Q) : Z :=
  let k := (Z.log2 (Qnum x) - Z.log2 (Zpos (Qden x)))%Z in
  if Qle_bool (2 ^ k) x then k else (k - 1)%Z.

(** Exponent of the unit in the last place of [x]: 53 significant bits,
    and never below the subnormal exponent. *)
Definition expo (x : Q) : Z := Z.max (ilog2 (Qabs x) - (prec - 1)) emin.

(** The integer significand of the rounded [x]. *)
Definition mant (x : Q) : Z := rne (x / 2 ^ expo x).

(** The binary64 number nearest to [x], in lowest terms.  Overflow to
    infinity is left out: every magnitude rounded below is a ratio, a mean
    or a position of list lengths, or a sum of at most five weights. *)
Definition round (x : Q) : Q :=
  if Qeq_bool x 0 then 0
  else Qred (inject_Z (mant x) * 2 ^ expo x).

(** Correctly rounded square root of a non-negative rational: the
    significand is the integer square root of the scaled operand, moved up
    by one when the operand lies above the square of the midpoint. *)
Definition round_sqrt (x : Q) : Q :=
  if Qle_bool x 0 then 0
  else
    let e := (ilog2 x / 2 - (prec - 1))%Z in
    let y := x / 2 ^ (2 * e) in
    let m := Z.sqrt (Qfloor y) in
    let h := inject_Z m + (1 # 2) in
    let m' := match Qcompare y (h * h) with
              | Lt => m
              | Gt => (m + 1)%Z
              | Eq => if Z.even m then m else (m + 1)%Z
              end in
    Qred (inject_Z m' * 2 ^ e).

End B64.

(** A Python [float]: not-a-number, or a finite binary64 value.  The [int]
    operands of mixed arithmetic ([0], [1]) are the floats of the same
    value. *)
Inductive pyfloat : Type :=
| NaN
| Fin (q : Q).

Definition float_of_int (z : Z) : pyfloat := Fin (B64.round (inject_Z z)).

(** The float denoted by the decimal literal [n/d], e.g. [float_lit 4 10]
    for [0.4]. *)
Definition float_lit (n : Z) (d : positive) : pyfloat := Fin (B64.round (n # d)).

Definition fbinop (op : Q -> Q -> Q) (a b : pyfloat) : pyfloat :=
  match a, b with
  | Fin x, Fin y => Fin (B64.round (op x y))
  | _, _ => NaN
  end.

Definition fadd : pyfloat -> pyfloat -> pyfloat := fbinop Qplus.
Definition fsub : pyfloat -> pyfloat -> pyfloat := fbinop Qminus.
Definition fmul : pyfloat -> pyfloat -> pyfloat := fbinop Qmult.

(** Comparisons; any comparison with not-a-number is false. *)
Definition fle (a b : pyfloat) : bool :=
  match a, b with
  | Fin x, Fin y => Qle_bool x y
  | _, _ => false
  end.

Definition fgt (a b : pyfloat) : bool :=
  match a, b with
  | Fin x, Fin y => negb (Qle_bool x y)
  | _, _ => false
  end.

Definition fsqrt (a : pyfloat) : pyfloat :=
  match a with
  | Fin x => if Qle_bool 0 x then Fin (B64.round_sqrt x) else NaN
  | NaN => NaN
  end.

(* ================================================================== *)
(** ** Exceptions and results *)

(** The exceptions the modelled statements can raise.  [OtherError] stands
    for any other exception class, named: what a document parser raises, or
    a class a caller expects. *)
Inductive exn : Type :=
| AttributeError
| ZeroDivisionError
| IndexError
| UnboundLocalError
| OtherError (name : string).

Inductive result (A : Type) : Type :=
| Ok (a : A)
| Err (e : exn).

Arguments Ok {A} a.
Arguments Err {A} e.

Definition bind {A B : Type} (r : result A) (k : A -> result B) : result B :=
  match r with
  | Ok a => k a
  | Err e => Err e
  end.

Declare Scope res_scope.
Delimit Scope res_scope with res.
Notation "x <- e ;; k" := (bind e (fun x => k))
  (at level 61, e at next level, right associativity) : res_scope.

(* ================================================================== *)
(** ** Python built-ins *)

Definition pystr : Type := list N.

Definition codepoints (s : string) : pystr :=
  map N_of_ascii (list_ascii_of_string s).

Definition len {A : Type} (l : list A) : Z := Z.of_nat (List.length l).

Definition is_nil {A : Type} (l : list A) : bool :=
  match l with
  | [] => true
  | _ :: _ => false
  end.

Definition pystr_eqb (a b : pystr) : bool :=
  if list_eq_dec N.eq_dec a b then true else false.

(** [max(xs)] for a non-empty [xs]; the program guards the empty case. *)
Definition py_max (xs : list Z) : Z :=
  match xs with
  | [] => 0
  | x :: rest => fold_left Z.max rest x
  end.

Definition py_sum (xs : list Z) : Z := fold_left Z.add xs 0%Z.

(** [xs[i]], a negative [i] counting from the end. *)
Definition py_index (xs : list Z) (i : Z) : result Z :=
  let j := if (i <? 0)%Z then (len xs + i)%Z else i in
  if (j <? 0)%Z then Err IndexError
  else match nth_error xs (Z.to_nat j) with
       | Some x => Ok x
       | None => Err IndexError
       end.

(** [a / b] on [int]s: the correctly rounded quotient. *)
Definition int_truediv (a b : Z) : result pyfloat :=
  if (b =? 0)%Z then Err ZeroDivisionError
  else Ok (Fin (B64.round (inject_Z a / inject_Z b))).

Fixpoint dropwhile {A : Type} (p : A -> bool) (l : list A) : list A :=
  match l with
  | [] => []
  | x :: l' => if p x then dropwhile p l' else l
  end.

Section Strings.

(** The character classes of the Unicode database, as [str.isspace] and
    [str.isalpha] read them for one code point. *)
Variable isspace : N -> bool.
Variable isalpha : N -> bool.

(** [s.strip()] *)
Definition strip (s : pystr) : pystr :=
  rev (dropwhile isspace (rev (dropwhile isspace s))).

(** [s.split()]: the maximal runs of non-whitespace, in order.  [cur] is
    the run being read, reversed. *)
Fixpoint split_from (cur : pystr) (s : pystr) : list pystr :=
  match s with
  | [] => if is_nil cur then [] else [rev cur]
  | c :: s' =>
      if isspace c
      then (if is_nil cur then split_from [] s' else rev cur :: split_from [] s')
      else split_from (c :: cur) s'
  end.

Definition split (s : pystr) : list pystr := split_from [] s.

(** [s.isalpha()]: at least one character, all of them alphabetic. *)
Definition str_isalpha (s : pystr) : bool :=
  negb (is_nil s) && forallb isalpha s.

End Strings.

(* ================================================================== *)
(** ** numpy *)

(** Insertion sort, standing for the ordering [np.percentile] brings the
    sample into before it reads the two neighbours of the position. *)
Fixpoint insert_sorted (x : Z) (l : list Z) : list Z :=
  match l with
  | [] => [x]
  | y :: l' => if (x <=? y)%Z then x :: l else y :: insert_sorted x l'
  end.

Definition sorted (l : list Z) : list Z := fold_right insert_sorted [] l.

(** [np.mean(xs)] on a list of [int]s: the float64 sum of integers is exact
    (below 2^53, all an in-memory table reaches), and the division by the
    count rounds once.  The mean of an empty list is not-a-number, with a
    warning and no exception. *)
Definition np_mean (xs : list Z) : pyfloat :=
  match xs with
  | [] => NaN
  | _ :: _ => Fin (B64.round (inject_Z (py_sum xs) / inject_Z (len xs)))
  end.

(** numpy's [_lerp(a, b, t)] on two [int] neighbours:
    [a + (b - a) * t], replaced by [b - (b - a) * (1 - t)] where
    [t >= 0.5]. *)
Definition lerp (a b : Z) (t : pyfloat) : pyfloat :=
  let diff_b_a := (b - a)%Z in
  if fle (float_lit 5 10) t
  then fsub (float_of_int b) (fmul (float_of_int diff_b_a) (fsub (float_of_int 1) t))
  else fadd (float_of_int a) (fmul (float_of_int diff_b_a) t).

(** [np.percentile(xs, q)] with the default linear method: the position
    [(n - 1) * q / 100], its two neighbours in the ordered sample (both the
    last element when the position reaches [n - 1]), and the interpolation
    between them.  On an empty list the read of the last element fails. *)
Definition np_percentile (xs : list Z) (q : Z) : result pyfloat :=
  let n := len xs in
  let quantile := float_lit q 100 in
  let virtual_index := fmul (float_of_int (n - 1)) quantile in
  match virtual_index with
  | NaN => Ok NaN
  | Fin v =>
      let above_bounds := Qle_bool (inject_Z (n - 1)) v in
      let previous_index := if above_bounds then (-1)%Z else Qfloor v in
      let next_index := if above_bounds then (-1)%Z else (Qfloor v + 1)%Z in
      let arr := sorted xs in
      (previous <- py_index arr previous_index ;;
       next <- py_index arr next_index ;;
       let gamma := fsub virtual_index (float_of_int previous_index) in
       Ok (lerp previous next gamma))%res
  end.

(** numpy's [_var]/[_std] evaluated in float64 with the sum taken from left
    to right.  numpy adds pairwise, in an order that depends on its version
    and on the length, so the classifier below does not use this
    definition: it takes [np.std] on non-empty input as a section variable,
    and this one serves as an instance to run examples with. *)
Definition np_std_sequential (xs : list Z) : pyfloat :=
  let n := float_of_int (len xs) in
  let fdiv (a b : pyfloat) : pyfloat :=
    match a, b with
    | Fin x, Fin y => if Qeq_bool y 0 then NaN else Fin (B64.round (x / y)%Q)
    | _, _ => NaN
    end in
  let arrmean := fdiv (float_of_int (py_sum xs)) n in
  let x := map (fun v => fsub (float_of_int v) arrmean) xs in
  let x2 := map (fun d => fmul d d) x in
  fsqrt (fdiv (fold_left fadd x2 (Fin 0)) n).

(* ================================================================== *)
(** ** The table classifier *)

(** A cell value: [None] (pdfplumber's empty cell), a [str], or a list (a
    nested structure). *)
#[warnings="-register-all"]
Inductive cell : Type :=
| CNone
| CStr (s : pystr)
| CList (items : list cell).

Definition table : Type := list (list cell).

(** Python truthiness of a cell, as in [if cell] and [not cell]. *)
Definition truthy (c : cell) : bool :=
  match c with
  | CNone => false
  | CStr s => negb (is_nil s)
  | CList items => negb (is_nil items)
  end.

Definition isinstance_list (c : cell) : bool :=
  match c with
  | CList _ => true
  | _ => false
  end.

(** [cell for cell in row if isinstance(cell, str)] *)
Definition str_cells (row : list cell) : list pystr :=
  flat_map (fun c => match c with CStr s => [s] | _ => [] end) row.

Inductive table_label : Type := Simple | Moderate | Complex.

Definition table_label_eqb (a b : table_label) : bool :=
  match a, b with
  | Simple, Simple | Moderate, Moderate | Complex, Complex => true
  | _, _ => false
  end.

Section Classifier.

Variable isspace : N -> bool.
Variable isalpha : N -> bool.

(** [str(items)] for a list cell: Python's [repr] of the list, not
    modelled.  Only a non-empty list cell reaches it, on line 22, and line
    16 has raised on that cell before. *)
Variable repr_list : list cell -> pystr.

(** [np.std] on a non-empty list of row lengths: its float64 result, see
    [np_std_sequential]. *)
Variable np_std_nonempty : list Z -> pyfloat.

(** [np.std(xs)]: not-a-number on the empty list, with a warning and no
    exception. *)
Definition np_std (xs : list Z) : pyfloat :=
  match xs with
  | [] => NaN
  | _ :: _ => np_std_nonempty xs
  end.

(** [str(cell)] *)
Definition py_str (c : cell) : pystr :=
  match c with
  | CNone => codepoints "None"
  | CStr s => s
  | CList items => repr_list items
  end.

(** [cell.strip() == ""]: only [str] has the attribute [strip]. *)
Definition cell_strip_is_empty (c : cell) : result bool :=
  match c with
  | CStr s => Ok (pystr_eqb (strip isspace s) [])
  | _ => Err AttributeError
  end.

(** Line 16, one cell: [not cell or cell.strip() == ""]. *)
Definition is_empty_cell (c : cell) : result bool :=
  if negb (truthy c) then Ok true else cell_strip_is_empty c.

(** [sum(1 for x in xs if p(x))] where [p] may raise. *)
Fixpoint count_if {A : Type} (p : A -> result bool) (xs : list A) : result Z :=
  match xs with
  | [] => Ok 0%Z
  | x :: xs' =>
      (b <- p x ;;
       n <- count_if p xs' ;;
       Ok ((if b then 1 else 0) + n)%Z)%res
  end.

(** [for row in table for cell in row] *)
Definition cells (t : table) : list cell := List.concat t.

(** Lines 13 to 15. *)
Definition num_rows (t : table) : Z := len t.

Definition num_cols (t : table) : Z :=
  if is_nil t then 0%Z else py_max (map len t).

Definition total_cells (t : table) : Z := (num_rows t * num_cols t)%Z.

(** Line 16. *)
Definition empty_cells (t : table) : result Z := count_if is_empty_cell (cells t).

(** Line 17. *)
Definition merged_cell_ratio (t : table) : result pyfloat :=
  (e <- empty_cells t ;;
   if (total_cells t =? 0)%Z then Ok (Fin 0) else int_truediv e (total_cells t))%res.

(** Lines 18 and 19. *)
Definition row_lengths (t : table) : list Z := map len t.

Definition row_length_variation (t : table) : bool :=
  fgt (np_std (row_lengths t)) (float_of_int 1).

(** Line 20. *)
Definition word_count (c : cell) : Z := len (split isspace (py_str c)).

Definition nested_table (t : table) : bool :=
  existsb (fun c => isinstance_list c || (15 <? word_count c)%Z) (cells t).

(** Line 21. *)
Definition header_row (row : list cell) : bool :=
  forallb (fun s => negb (is_nil s) && str_isalpha isalpha s) (str_cells row).

Definition header_count (t : table) : Z := len (filter header_row (firstn 3 t)).

(** Lines 22 to 24. *)
Definition word_counts (t : table) : list Z :=
  map word_count (filter truthy (cells t)).

Definition avg_word_count (t : table) : pyfloat :=
  if is_nil (word_counts t) then Fin 0 else np_mean (word_counts t).

Definition high_density (t : table) : result bool :=
  if is_nil (word_counts t) then Ok false
  else (p75 <- np_percentile (word_counts t) 75 ;;
        Ok (fgt (avg_word_count t) p75))%res.

(** One summand of line 26: [w if signal else 0]. *)
Definition weight (w : pyfloat) (signal : bool) : pyfloat :=
  if signal then w else Fin 0.

Definition merged_term (ratio : pyfloat) : pyfloat :=
  weight (float_lit 4 10) (fgt ratio (float_lit 2 10)).

Definition variation_term (t : table) : pyfloat :=
  weight (float_lit 3 10) (row_length_variation t).

Definition nested_term (t : table) : pyfloat :=
  weight (float_lit 4 10) (nested_table t).

Definition header_term (t : table) : pyfloat :=
  weight (float_lit 3 10) (1 <? header_count t)%Z.

Definition density_term (dense : bool) : pyfloat :=
  weight (float_lit 2 10) dense.

(** Lines 26 to 32.  The locals are computed in the order of the source,
    so the first exception is the one the call raises. *)
Definition score (t : table) : result pyfloat :=
  (ratio <- merged_cell_ratio t ;;
   dense <- high_density t ;;
   Ok (fadd (fadd (fadd (fadd (merged_term ratio) (variation_term t))
                        (nested_term t))
                  (header_term t))
            (density_term dense)))%res.

(** Line 33. *)
Definition complexity_label (s : pyfloat) : table_label :=
  if fle s (float_lit 3 10) then Simple
  else if fle s (float_lit 6 10) then Moderate
  else Complex.

Definition calculate_table_complexity (t : table) : result (pyfloat * table_label) :=
  (s <- score t ;; Ok (s, complexity_label s))%res.

(** [sum(1 for table in tables if calculate_table_complexity(table)[1] == "Complex")] *)
Definition count_complex (tables : list table) : result Z :=
  count_if (fun t => (r <- calculate_table_complexity t ;;
                      Ok (table_label_eqb (snd r) Complex))%res) tables.

End Classifier.

(* ================================================================== *)
(** ** The document parsers *)

(** What the program reads from a parsed document.  The parsers
    (pdfplumber, PyMuPDF, pdfminer, python-docx, python-pptx) are outside
    the repository: each is a function from the path to what it yields, or
    to the exception it raises. *)

(** A pdfminer layout element: a text box with its text, or anything else. *)
Inductive lt_element : Type :=
| LTTextBox (text : pystr)
| LTOther.

(** A python-docx document: its tables as rows of cell texts, its inline
    shapes, the texts of its paragraphs and, for each section, the [w:col]
    children of its [w:cols]. *)
Record docx_document : Type := {
  doc_tables : list (list (list pystr));
  doc_inline_shapes : list unit;
  doc_paragraphs : list pystr;
  doc_sections : list (list unit)
}.

(** A python-pptx shape: its table if [has_table], the text of its text
    frame if [has_text_frame], and its [shape_type]. *)
Record shape : Type := {
  shape_table : option (list (list pystr));
  shape_text_frame : option pystr;
  shape_type : option Z
}.

Definition presentation : Type := list (list shape).

Inductive parser : Type := Pdfplumber | PyMuPDF | Pdfminer | PythonDocx | PythonPptx.

Record parsers : Type := {
  pdfplumber_open : pystr -> result (list (list table));
  fitz_open : pystr -> result (list (list Z));
  extract_pages : pystr -> result (list (list lt_element));
  docx_Document : pystr -> result docx_document;
  pptx_Presentation : pystr -> result presentation
}.

(** Computations that open documents: the result, and the log of the
    parser calls made so far. *)
Definition event : Type := (parser * pystr)%type.

Definition M (A : Type) : Type := list event -> result A * list event.

Definition ret {A : Type} (a : A) : M A := fun log => (Ok a, log).

Definition raise {A : Type} (e : exn) : M A := fun log => (Err e, log).

Definition lift {A : Type} (r : result A) : M A := fun log => (r, log).

Definition bindM {A B : Type} (m : M A) (k : A -> M B) : M B :=
  fun log =>
    match m log with
    | (Ok a, log') => k a log'
    | (Err e, log') => (Err e, log')
    end.

(** A parser call on [path]: logged, then its outcome. *)
Definition parse {A : Type} (p : parser) (path : pystr) (r : result A) : M A :=
  fun log => (r, log ++ [(p, path)]).

Declare Scope io_scope.
Delimit Scope io_scope with io.
Notation "x <- e ;; k" := (bindM e (fun x => k))
  (at level 61, e at next level, right associativity) : io_scope.

(* ================================================================== *)
(** ** The report *)

Inductive complexity_level : Type := Low | Medium | High.

(** The dictionary returned by [calculate_document_complexity]. *)
Record report : Type := {
  complex_tables_found : Z;
  columns_detected : Z;
  dense_paragraphs_reported : Z;
  images_found : Z;
  final_complexity_score : Z;
  complexity_level_of : complexity_level
}.

(** Lines 105 to 118: the scoring arithmetic and the report. *)
Definition table_score (num_complex_tables : Z) : Z := (num_complex_tables * 20)%Z.

Definition layout_score (num_columns dense_paragraphs : Z) : Z :=
  if (1 <? num_columns)%Z || (0 <? dense_paragraphs)%Z
  then (num_columns * 20 + dense_paragraphs * 5)%Z
  else 0%Z.

Definition image_score (num_images : Z) : Z := (num_images * 10)%Z.

Definition final_score (num_complex_tables num_images num_columns dense_paragraphs : Z) : Z :=
  (table_score num_complex_tables + layout_score num_columns dense_paragraphs
   + image_score num_images)%Z.

Definition level_of_score (s : Z) : complexity_level :=
  if (100 <? s)%Z then High else if (50 <? s)%Z then Medium else Low.

Definition make_report (num_complex_tables num_images num_columns dense_paragraphs : Z)
  : report :=
  let s := final_score num_complex_tables num_images num_columns dense_paragraphs in
  {| complex_tables_found := num_complex_tables;
     columns_detected := num_columns;
     dense_paragraphs_reported := dense_paragraphs;
     images_found := num_images;
     final_complexity_score := s;
     complexity_level_of := level_of_score s |}.

(* ================================================================== *)
(** ** The format extractors and the document scorer *)

(** [[[cell.text for cell in row.cells] for row in table.rows]] *)
Definition text_grid (rows : list (list pystr)) : table := map (map CStr) rows.

(** [len(text) > 500] *)
Definition is_dense (text : pystr) : bool := (500 <? len text)%Z.

Section Document.

Variable isspace : N -> bool.
Variable isalpha : N -> bool.
Variable repr_list : list cell -> pystr.
Variable np_std_nonempty : list Z -> pyfloat.
Variable lib : parsers.

Definition count_complex_tables (tables : list table) : result Z :=
  count_complex isspace isalpha repr_list np_std_nonempty tables.

(** Lines 37 to 43. *)
Definition count_complex_tables_pdf (pdf_path : pystr) : M Z :=
  (pages <- parse Pdfplumber pdf_path (pdfplumber_open lib pdf_path) ;;
   lift (fold_left
           (fun acc tables =>
              (complex_table_count <- acc ;;
               n <- count_complex_tables tables ;;
               Ok (complex_table_count + n)%Z)%res)
           pages (Ok 0%Z)))%io.

(** Lines 45 to 47. *)
Definition count_images_pdf (pdf_path : pystr) : M Z :=
  (doc <- parse PyMuPDF pdf_path (fitz_open lib pdf_path) ;;
   ret (py_sum (map len doc)))%io.

(** Lines 49 to 57. *)
Definition dense_text_box (element : lt_element) : bool :=
  match element with
  | LTTextBox text => is_dense text
  | LTOther => false
  end.

Definition analyze_layout_complexity_pdf (pdf_path : pystr) : M (Z * Z) :=
  (pages <- parse Pdfminer pdf_path (extract_pages lib pdf_path) ;;
   ret (fold_left
          (fun (state : Z * Z) page_layout =>
             let (num_columns, dense_paragraphs) := state in
             let paragraph_count := len (filter dense_text_box page_layout) in
             ((if (5 <? paragraph_count)%Z then 2 else num_columns),
              (dense_paragraphs + paragraph_count))%Z)
          pages (1, 0)%Z))%io.

(** Lines 60 to 62. *)
Definition count_tables_docx (doc_path : pystr) : M Z :=
  (doc <- parse PythonDocx doc_path (docx_Document lib doc_path) ;;
   lift (count_complex_tables (map text_grid (doc_tables doc))))%io.

(** Lines 64 and 65. *)
Definition count_images_docx (doc_path : pystr) : M Z :=
  (doc <- parse PythonDocx doc_path (docx_Document lib doc_path) ;;
   ret (len (doc_inline_shapes doc)))%io.

(** Lines 67 to 74. *)
Definition analyze_layout_complexity_docx (doc_path : pystr) : M (Z * Z) :=
  (doc <- parse PythonDocx doc_path (docx_Document lib doc_path) ;;
   let dense_paragraphs := len (filter is_dense (doc_paragraphs doc)) in
   let num_columns :=
     fold_left (fun num_columns cols =>
                  if negb (is_nil cols) then Z.max num_columns (len cols)
                  else num_columns)
               (doc_sections doc) 1%Z in
   ret (num_columns, dense_paragraphs))%io.

(** [for slide in ppt.slides for shape in slide.shapes] *)
Definition shapes (ppt : presentation) : list shape := List.concat ppt.

(** Lines 77 to 79. *)
Definition count_tables_pptx (ppt_path : pystr) : M Z :=
  (ppt <- parse PythonPptx ppt_path (pptx_Presentation lib ppt_path) ;;
   lift (count_if
           (fun sh =>
              match shape_table sh with
              | None => Ok false
              | Some rows =>
                  (r <- calculate_table_complexity isspace isalpha repr_list
                          np_std_nonempty (text_grid rows) ;;
                   Ok (table_label_eqb (snd r) Complex))%res
              end)
           (shapes ppt)))%io.

(** Lines 81 and 82; 13 is the shape type of a picture. *)
Definition is_picture (sh : shape) : bool :=
  match shape_type sh with
  | Some ty => (ty =? 13)%Z
  | None => false
  end.

Definition count_images_pptx (ppt_path : pystr) : M Z :=
  (ppt <- parse PythonPptx ppt_path (pptx_Presentation lib ppt_path) ;;
   ret (len (filter is_picture (shapes ppt))))%io.

(** Lines 84 to 87. *)
Definition dense_text_frame (sh : shape) : bool :=
  match shape_text_frame sh with
  | Some text => is_dense text
  | None => false
  end.

Definition raw_dense_paragraphs_pptx (ppt : presentation) : Z :=
  len (filter dense_text_frame (shapes ppt)).

Definition analyze_layout_complexity_pptx (ppt_path : pystr) : M (Z * Z) :=
  (ppt <- parse PythonPptx ppt_path (pptx_Presentation lib ppt_path) ;;
   let dense_paragraphs := raw_dense_paragraphs_pptx ppt in
   ret ((if (dense_paragraphs <? 5)%Z then 1 else 2)%Z, dense_paragraphs))%io.

(** Lines 90 to 118.  [measured] is what the branches have bound of
    [num_complex_tables], [num_images], [num_columns] and
    [dense_paragraphs]: nothing when no branch is taken, and line 105 then
    reads an unbound local. *)
Definition calculate_document_complexity (file_path file_type : pystr) : M report :=
  (measured <-
     (if pystr_eqb file_type (codepoints "pdf") then
        num_complex_tables <- count_complex_tables_pdf file_path ;;
        num_images <- count_images_pdf file_path ;;
        layout <- analyze_layout_complexity_pdf file_path ;;
        ret (Some (num_complex_tables, num_images, fst layout, snd layout))
      else if pystr_eqb file_type (codepoints "docx") then
        num_complex_tables <- count_tables_docx file_path ;;
        num_images <- count_images_docx file_path ;;
        layout <- analyze_layout_complexity_docx file_path ;;
        ret (Some (num_complex_tables, num_images, fst layout, snd layout))
      else if pystr_eqb file_type (codepoints "pptx") then
        num_complex_tables <- count_tables_pptx file_path ;;
        num_images <- count_images_pptx file_path ;;
        layout <- analyze_layout_complexity_pptx file_path ;;
        let dense_paragraphs := 0%Z in
        ret (Some (num_complex_tables, num_images, fst layout, dense_paragraphs))
      else ret None) ;;
   match measured with
   | None => raise UnboundLocalError
   | Some (num_complex_tables, num_images, num_columns, dense_paragraphs) =>
       ret (make_report num_complex_tables num_images num_columns dense_paragraphs)
   end)%io.

End Document.

(* ================================================================== *)
(** ** Instances to evaluate the program on concrete inputs *)

(** The whitespace code points of the Unicode database, as CPython's
    [str.isspace] lists them. *)
Definition unicode_isspace (c : N) : bool :=
  ((9 <=? c) && (c <=? 13) || (28 <=? c) && (c <=? 32)
   || (c =? 133) || (c =? 160) || (c =? 5760)
   || (8192 <=? c) && (c <=? 8202)
   || (c =? 8232) || (c =? 8233) || (c =? 8239) || (c =? 8287) || (c =? 12288))%N.

(** The alphabetic code points below 128; the concrete tables below stay
    within ASCII. *)
Definition ascii_isalpha (c : N) : bool :=
  ((65 <=? c) && (c <=? 90) || (97 <=? c) && (c <=? 122))%N.

(** [repr] of a cell, exact for strings of printable characters other than
    the quote and the backslash. *)
Fixpoint repr_cell (c : cell) : pystr :=
  match c with
  | CNone => codepoints "None"
  | CStr s => [39%N] ++ s ++ [39%N]
  | CList items =>
      [91%N]
      ++ (fix go (l : list cell) : pystr :=
            match l with
            | [] => []
            | [x] => repr_cell x
            | x :: l' => repr_cell x ++ [44%N; 32%N] ++ go l'
            end) items
      ++ [93%N]
  end.

Definition repr_ascii (items : list cell) : pystr := repr_cell (CList items).

(** The classifier and the summands of its score under these instances. *)
Definition classify : table -> result (pyfloat * table_label) :=
  calculate_table_complexity unicode_isspace ascii_isalpha repr_ascii np_std_sequential.

(** A slide deck with six text frames of 501 characters, one small table
    and one picture; and parsers that know this deck only. *)
Definition dense_shape : shape :=
  {| shape_table := None;
     shape_text_frame := Some (repeat 120%N 501);
     shape_type := Some 17%Z |}.

Definition demo_deck : presentation :=
  [ [ dense_shape; dense_shape; dense_shape;
      {| shape_table := Some [[codepoints "Name"; codepoints "Age"];
                              [codepoints "Ada"; codepoints "36"]];
         shape_text_frame := None;
         shape_type := Some 19%Z |} ];
    [ dense_shape; dense_shape; dense_shape;
      {| shape_table := None; shape_text_frame := None; shape_type := Some 13%Z |} ] ].

Definition demo_parsers : parsers :=
  {| pdfplumber_open := fun _ => Err (OtherError "PDFSyntaxError");
     fitz_open := fun _ => Err (OtherError "FileDataError");
     extract_pages := fun _ => Err (OtherError "PDFSyntaxError");
     docx_Document := fun _ => Err (OtherError "PackageNotFoundError");
     pptx_Presentation := fun _ => Ok demo_deck |}.

Definition analyse (file_path file_type : string) : result report * list event :=
  calculate_document_complexity unicode_isspace ascii_isalpha repr_ascii
    np_std_sequential demo_parsers (codepoints file_path) (codepoints file_type) [].

(** A text cell, and the tables the claims are run on. *)
Definition text (s : string) : cell := CStr (codepoints s).

(** Two rows, each a word and an empty string: under the reading of claim
    C4 both are header rows; the code counts neither. *)
Definition two_headers_with_blanks : table :=
  [ [text "Name"; text ""];
    [text "Age"; text ""] ].

Definition two_headers_with_none : table :=
  [ [text "Name"; CNone];
    [text "Age"; CNone] ].

(** One blank cell in five, a ratio of exactly 0.2; and two in five. *)
Definition one_blank_in_five : table :=
  [ [text "1"; text "2"; text "3"; text "4"; text " "] ].

Definition two_blank_in_five : table :=
  [ [text "1"; text "2"; text "3"; CNone; text " "] ].

(** Every non-empty cell has two words. *)
Definition two_words_each : table :=
  [ [text "a b"; text "c d"];
    [text "e f"; text ""] ].

(** Word counts 1, 1, 1, 9 and 2: the mean 2.8 exceeds the 75th percentile
    2.  Two cells in seven are blank. *)
Definition one_long_cell : table :=
  [ [text ""; text ""; text "1"; text "1"; text "1";
     text "1 2 3 4 5 6 7 8 9"; text "1 2"] ].

(** A list cell that is not empty. *)
Definition with_list_cell : table := [ [CList [text "a"]] ].

(** The same floats through the Standard Library's specification of
    IEEE 754 binary64 ([SpecFloat], precision 53 and maximal exponent 1024):
    an integer, a decimal literal [n/d], one summand of the score, and the
    value a specified float denotes. *)
Definition sf_of_Z (z : Z) : spec_float := binary_normalize 53 1024 z 0 false.

Definition sf_lit (n d : Z) : spec_float := SFdiv 53 1024 (sf_of_Z n) (sf_of_Z d).

Definition sf_weight (tenths : Z) (signal : bool) : spec_float :=
  if signal then sf_lit tenths 10 else S754_zero false.

Definition sf_value (x : spec_float) : pyfloat :=
  match x with
  | S754_zero _ => Fin 0
  | S754_finite sign m e =>
      Fin (Qred ((if sign then -1 else 1) * inject_Z (Zpos m) * 2 ^ e))
  | S754_infinity _ | S754_nan => NaN
  end.

(** Claim C4 in the words of the specification: a header row is one in
    which every non-empty string cell is purely alphabetic, so that an empty
    string cell does not prevent the row from counting. *)
Definition spec_header_row (isalpha : N -> bool) (row : list cell) : bool :=
  forallb (fun s => is_nil s || str_isalpha isalpha s) (str_cells row).

Definition spec_header_count (isalpha : N -> bool) (t : table) : Z :=
  len (filter (spec_header_row isalpha) (firstn 3 t)).

(** Cells on which line 16 raises, and cells it counts as empty. *)
Definition nonempty_list (c : cell) : bool :=
  match c with
  | CList (_ :: _) => true
  | _ => false
  end.

Definition blank_cell (isspace : N -> bool) (c : cell) : bool :=
  match c with
  | CNone => true
  | CStr s => forallb isspace s
  | CList items => is_nil items
  end.

(** The label read off the signals that fire.  [sparse] and [nested]
    weigh 0.4, [ragged] and [headers] 0.3, [dense] 0.2: a table with a 0.4
    signal is Moderate when it is alone and Complex otherwise; without one,
    the table is Simple with no 0.3 signal or with one and no density,
    Complex with both 0.3 signals and density, and Moderate in between. *)
Definition label_of_signals (sparse ragged nested headers dense : bool) : table_label :=
  if sparse || nested
  then (if sparse && nested || ragged || headers || dense then Complex else Moderate)
  else if ragged && headers
  then (if dense then Complex else Moderate)
  else if ragged || headers
  then (if dense then Moderate else Simple)
  else Simple.

(** [calculate_table_complexity(table)[1] == "Complex"], false when the
    call raises. *)
Definition labelled_complex (isspace isalpha : N -> bool)
  (repr_list : list cell -> pystr) (np_std_nonempty : list Z -> pyfloat)
  (t : table) : bool :=
  match calculate_table_complexity isspace isalpha repr_list np_std_nonempty t with
  | Ok (_, Complex) => true
  | _ => false
  end.

Definition level_rank (l : complexity_level) : Z :=
  match l with
  | Low => 0
  | Medium => 1
  | High => 2
  end.

(** A table of two rows of three [None] cells, as pdfplumber returns for a
    ruled but empty grid. *)
Definition blank_grid : table :=
  [ [CNone; CNone; CNone];
    [CNone; CNone; CNone] ].

(** A cell of sixteen one-letter words: 31 characters. *)
Definition sixteen_words : table :=
  [ [text "a b c d e f g h i j k l m n o p"; text "1"] ].

(** A two-page PDF and a word-processor document, and parsers that know
    them. *)
Definition demo_pdf_tables : list (list table) :=
  [ [blank_grid; one_blank_in_five]; [two_words_each] ].

Definition demo_pdf_images : list (list Z) := [ [7%Z; 9%Z]; []; [12%Z] ].

Definition demo_pdf_layout : list (list lt_element) :=
  [ [LTTextBox (repeat 120%N 501); LTOther; LTTextBox (codepoints "Title")];
    [LTTextBox (repeat 120%N 501); LTTextBox (repeat 120%N 501);
     LTTextBox (repeat 120%N 501); LTTextBox (repeat 120%N 501);
     LTTextBox (repeat 120%N 501); LTTextBox (repeat 120%N 501)] ].

Definition demo_docx : docx_document :=
  {| doc_tables := [ [[codepoints "Name"; codepoints "Age"];
                      [codepoints "Ada"; codepoints "36"]] ];
     doc_inline_shapes := [tt; tt];
     doc_paragraphs := [codepoints "Short."; repeat 120%N 501];
     doc_sections := [ []; [tt; tt; tt]; [tt] ] |}.

Definition office_parsers : parsers :=
  {| pdfplumber_open := fun _ => Ok demo_pdf_tables;
     fitz_open := fun _ => Ok demo_pdf_images;
     extract_pages := fun _ => Ok demo_pdf_layout;
     docx_Document := fun _ => Ok demo_docx;
     pptx_Presentation := fun _ => Ok demo_deck |}.

Definition analyse_office (file_path file_type : string) : result report * list event :=
  calculate_document_complexity unicode_isspace ascii_isalpha repr_ascii
    np_std_sequential office_parsers (codepoints file_path) (codepoints file_type) [].

(** Parsers under which PyMuPDF cannot read the PDF that pdfplumber
    reads. *)
Definition image_failing_parsers : parsers :=
  {| pdfplumber_open := fun _ => Ok demo_pdf_tables;
     fitz_open := fun _ => Err (OtherError "FileDataError");
     extract_pages := fun _ => Ok demo_pdf_layout;
     docx_Document := fun _ => Ok demo_docx;
     pptx_Presentation := fun _ => Ok demo_deck |}.

(* ================================================================== *)
(** ** Facts about binary64 rounding *)

Module B64Facts.

Import B64.
#[local] Open Scope Q_scope.

Lemma pow2_pos (e : Z) : 0 < 2 ^ e.
Proof. apply Qpower_0_lt. reflexivity. Qed.

Lemma pow2_nz (e : Z) : ~ 2 ^ e == 0.
Proof. intro H. pose proof (pow2_pos e) as P. rewrite H in P. inversion P. Qed.

Lemma pow2_le (a b : Z) : (a <= b)%Z -> 2 ^ a <= 2 ^ b.
Proof. intro H. apply Qpower_le_compat_l; [exact H | discriminate]. Qed.

Lemma pow2_lt_inv (a b : Z) : 2 ^ a < 2 ^ b -> (a < b)%Z.
Proof. intro H. apply (Qpower_lt_compat_l_inv 2); [exact H | reflexivity]. Qed.

Lemma pow2_add (a b : Z) : 2 ^ (a + b) == 2 ^ a * 2 ^ b.
Proof. apply Qpower_plus. discriminate. Qed.

Lemma pow2_inject (n : Z) : (0 <= n)%Z -> inject_Z (2 ^ n) == 2 ^ n.
Proof. intro H. apply (Zpower_Qpower 2 n H). Qed.

Lemma rne_floor_bounds (x : Q) : (Qfloor x <= rne x <= Qfloor x + 1)%Z.
Proof.
  unfold rne. destruct (x - inject_Z (Qfloor x) ?= 1 # 2); try lia.
  destruct (Z.even (Qfloor x)); lia.
Qed.

Lemma rne_proper (x y : Q) : x == y -> rne x = rne y.
Proof.
  intro H. unfold rne. rewrite <- (Qfloor_comp _ _ H).
  assert (E : x - inject_Z (Qfloor x) == y - inject_Z (Qfloor x)) by (unfold Qminus; apply Qplus_comp; [exact H | reflexivity]).
  rewrite (Qcompare_comp _ _ E (1#2) (1#2) (Qeq_refl _)). reflexivity.
Qed.

Lemma rne_Z (z : Z) : rne (inject_Z z) = z.
Proof.
  unfold rne. rewrite Qfloor_Z.
  assert (E : inject_Z z - inject_Z z == 0) by ring.
  rewrite (Qcompare_comp _ _ E (1#2) (1#2) (Qeq_refl _)). reflexivity.
Qed.

Lemma rne_le (x y : Q) : x <= y -> (rne x <= rne y)%Z.
Proof.
  intro H. pose proof (Qfloor_resp_le _ _ H) as F.
  pose proof (rne_floor_bounds x) as Bx. pose proof (rne_floor_bounds y) as By.
  destruct (Z.eq_dec (Qfloor x) (Qfloor y)) as [E | NE]; [| lia].
  unfold rne. rewrite <- E.
  destruct (Qcompare_spec (x - inject_Z (Qfloor x)) (1#2)) as [Hx | Hx | Hx];
  destruct (Qcompare_spec (y - inject_Z (Qfloor x)) (1#2)) as [Hy | Hy | Hy];
  try (destruct (Z.even (Qfloor x))); try lia; exfalso; lra.
Qed.

Lemma inject_Z_pos (z : Z) : (0 < z)%Z -> 0 < inject_Z z.
Proof. intro H. change 0 with (inject_Z 0). rewrite <- Zlt_Qlt. exact H. Qed.

Lemma pow2_sub_inject (a b : Z) :
  (0 <= a)%Z -> (0 <= b)%Z -> 2 ^ (a - b) == inject_Z (2 ^ a) / inject_Z (2 ^ b).
Proof.
  intros Ha Hb. rewrite (pow2_inject a Ha), (pow2_inject b Hb).
  apply Qpower_minus. discriminate.
Qed.

Lemma ilog2_spec (x : Q) : 0 < x -> 2 ^ ilog2 x <= x /\ x < 2 ^ (ilog2 x + 1).
Proof.
  destruct x as [n d]. intro Hpos.
  assert (Hn : (0 < n)%Z) by (unfold Qlt in Hpos; simpl in Hpos; lia).
  unfold ilog2; cbn [Qnum Qden].
  pose proof (Z.log2_spec n Hn) as [Ln Un].
  pose proof (Z.log2_spec (Zpos d) (Pos2Z.is_pos d)) as [Ld Ud].
  pose proof (Z.log2_nonneg n) as Nn. pose proof (Z.log2_nonneg (Zpos d)) as Nd.
  set (lp := Z.log2 n) in *. set (ld := Z.log2 (Zpos d)) in *.
  assert (Pd : (0 < 2 ^ ld)%Z) by (apply Z.pow_pos_nonneg; lia).
  assert (Pd1 : (0 < 2 ^ Z.succ ld)%Z) by (apply Z.pow_pos_nonneg; lia).
  destruct (Qle_bool (2 ^ (lp - ld)) (n # d)) eqn:E.
  - apply Qle_bool_iff in E. split; [exact E |].
    replace (lp - ld + 1)%Z with (Z.succ lp - ld)%Z by lia.
    rewrite pow2_sub_inject by lia.
    apply Qlt_shift_div_l.
    + apply inject_Z_pos. exact Pd.
    + unfold Qlt, Qmult, inject_Z; cbn [Qnum Qden]. nia.
  - assert (L : n # d < 2 ^ (lp - ld)).
    { apply Qnot_le_lt. intro C. apply Qle_bool_iff in C. congruence. }
    split.
    + replace (lp - ld - 1)%Z with (lp - Z.succ ld)%Z by lia.
      rewrite pow2_sub_inject by lia.
      apply Qle_shift_div_r.
      * apply inject_Z_pos. exact Pd1.
      * unfold Qle, Qmult, inject_Z; cbn [Qnum Qden]. nia.
    + replace (lp - ld - 1 + 1)%Z with (lp - ld)%Z by lia. exact L.
Qed.

Lemma ilog2_unique (x : Q) (a : Z) : 2 ^ a <= x -> x < 2 ^ (a + 1) -> ilog2 x = a.
Proof.
  intros L U.
  assert (Hpos : 0 < x) by (eapply Qlt_le_trans; [apply (pow2_pos a) | exact L]).
  destruct (ilog2_spec x Hpos) as [L' U'].
  assert (a < ilog2 x + 1)%Z by (apply pow2_lt_inv; eapply Qle_lt_trans; eassumption).
  assert (ilog2 x < a + 1)%Z by (apply pow2_lt_inv; eapply Qle_lt_trans; eassumption).
  lia.
Qed.

Lemma ilog2_proper (x y : Q) : 0 < x -> x == y -> ilog2 x = ilog2 y.
Proof.
  intros Hpos E. destruct (ilog2_spec x Hpos) as [L U].
  symmetry. apply ilog2_unique; rewrite <- E; assumption.
Qed.

Lemma ilog2_le (x y : Q) : 0 < x -> x <= y -> (ilog2 x <= ilog2 y)%Z.
Proof.
  intros Hx Hxy.
  assert (Hy : 0 < y) by (eapply Qlt_le_trans; eassumption).
  destruct (ilog2_spec x Hx) as [Lx _]. destruct (ilog2_spec y Hy) as [_ Uy].
  assert (ilog2 x < ilog2 y + 1)%Z; [| lia].
  apply pow2_lt_inv. eapply Qle_lt_trans; [exact Lx |]. eapply Qle_lt_trans; eassumption.
Qed.

Lemma Qabs_pos_lt (x : Q) : ~ x == 0 -> 0 < Qabs x.
Proof.
  destruct x as [n d]. unfold Qabs, Qlt, Qeq; cbn [Qnum Qden]. lia.
Qed.

Lemma expo_ge_emin (x : Q) : (emin <= expo x)%Z.
Proof. unfold expo. apply Z.le_max_r. Qed.

Lemma expo_proper (x y : Q) : ~ x == 0 -> x == y -> expo x = expo y.
Proof.
  intros NZ E. unfold expo. f_equal. f_equal.
  apply ilog2_proper; [apply Qabs_pos_lt; exact NZ | apply Qabs_wd; exact E].
Qed.

Lemma round_proper (x y : Q) : x == y -> round x = round y.
Proof.
  intro E. unfold round, mant. rewrite <- (Qeqb_comp x y E 0 0 (Qeq_refl 0)).
  destruct (Qeq_bool x 0) eqn:Z0; [reflexivity |].
  apply Qeq_bool_neq in Z0. rewrite <- (expo_proper x y Z0 E).
  apply Qred_complete. rewrite (rne_proper (x / 2 ^ expo x) (y / 2 ^ expo x)).
  - reflexivity.
  - unfold Qdiv. apply Qmult_comp; [exact E | reflexivity].
Qed.

Lemma round_val (x : Q) : ~ x == 0 -> round x == inject_Z (mant x) * 2 ^ expo x.
Proof.
  intro NZ. unfold round. destruct (Qeq_bool x 0) eqn:Z0.
  - apply Qeq_bool_eq in Z0. contradiction.
  - apply Qred_correct.
Qed.

Lemma scaled_lt (x : Q) : ~ x == 0 -> Qabs x / 2 ^ expo x < 2 ^ prec.
Proof.
  intro NZ. destruct (ilog2_spec _ (Qabs_pos_lt x NZ)) as [_ U].
  apply Qlt_shift_div_r; [apply pow2_pos |].
  rewrite <- pow2_add. eapply Qlt_le_trans; [exact U |].
  apply pow2_le. unfold expo, prec. lia.
Qed.

Lemma scaled_ge (x : Q) :
  ~ x == 0 -> (emin < expo x)%Z -> 2 ^ (prec - 1) <= Qabs x / 2 ^ expo x.
Proof.
  intros NZ He. destruct (ilog2_spec _ (Qabs_pos_lt x NZ)) as [L _].
  apply Qle_shift_div_l; [apply pow2_pos |].
  rewrite <- pow2_add. eapply Qle_trans; [| exact L].
  apply pow2_le. unfold expo, prec in *. lia.
Qed.

Lemma mant_bounds (x : Q) : ~ x == 0 -> (- 2 ^ prec <= mant x <= 2 ^ prec)%Z.
Proof.
  intro NZ. pose proof (scaled_lt x NZ) as U.
  assert (A : Qabs (x / 2 ^ expo x) < 2 ^ prec).
  { unfold Qdiv. rewrite Qabs_Qmult, Qabs_Qinv.
    rewrite (Qabs_pos (2 ^ expo x)) by (apply Qlt_le_weak, pow2_pos). exact U. }
  apply Qabs_Qlt_condition in A. destruct A as [A1 A2].
  assert (P : 2 ^ prec == inject_Z (2 ^ prec)) by (symmetry; apply pow2_inject; discriminate).
  unfold mant. split.
  - rewrite <- (rne_Z (- 2 ^ prec)). apply rne_le. rewrite inject_Z_opp, <- P.
    apply Qlt_le_weak, A1.
  - rewrite <- (rne_Z (2 ^ prec)). apply rne_le. rewrite <- P.
    apply Qlt_le_weak, A2.
Qed.

Lemma round_eq0 (x : Q) : x == 0 -> round x = 0.
Proof. intro E. rewrite (round_proper x 0 E). reflexivity. Qed.

Lemma mant_nonneg (x : Q) : 0 <= x -> (0 <= mant x)%Z.
Proof.
  intro H. unfold mant. rewrite <- (rne_Z 0). apply rne_le.
  change (inject_Z 0) with 0. apply Qle_shift_div_l; [apply pow2_pos |].
  rewrite Qmult_0_l. exact H.
Qed.

Lemma round_nonneg (x : Q) : 0 <= x -> 0 <= round x.
Proof.
  intro H. destruct (Qeq_dec x 0) as [E | NZ].
  - rewrite (round_eq0 x E). apply Qle_refl.
  - rewrite (round_val x NZ). apply Qmult_le_0_compat.
    + change 0 with (inject_Z 0). rewrite <- Zle_Qle. apply mant_nonneg, H.
    + apply Qlt_le_weak, pow2_pos.
Qed.

Lemma expo_pos_le (x y : Q) : 0 < x -> x <= y -> (expo x <= expo y)%Z.
Proof.
  intros Hx Hxy. unfold expo. apply Z.max_le_compat_r.
  apply Z.sub_le_mono_r. apply ilog2_le.
  - apply Qabs_gt. exact Hx.
  - rewrite (Qabs_pos x) by (apply Qlt_le_weak, Hx).
    rewrite (Qabs_pos y) by (apply Qlt_le_weak; eapply Qlt_le_trans; eassumption).
    exact Hxy.
Qed.

Lemma round_le (x y : Q) : 0 <= x -> x <= y -> round x <= round y.
Proof.
  intros Hx Hxy. destruct (Qeq_dec x 0) as [E | NZx].
  - rewrite (round_eq0 x E). apply round_nonneg. eapply Qle_trans; eassumption.
  - assert (Px : 0 < x) by (apply Qlt_leneq; split; [exact Hx | intro C; apply NZx; symmetry; exact C]).
    assert (Py : 0 < y) by (eapply Qlt_le_trans; eassumption).
    assert (NZy : ~ y == 0) by (intro C; rewrite C in Py; inversion Py).
    rewrite (round_val x NZx), (round_val y NZy).
    pose proof (expo_pos_le x y Px Hxy) as He.
    destruct (Z.eq_dec (expo x) (expo y)) as [Ee | Ne].
    + unfold mant. rewrite Ee.
      apply Qmult_le_compat_r; [| apply Qlt_le_weak, pow2_pos].
      rewrite <- Zle_Qle. apply rne_le.
      apply Qmult_le_compat_r; [exact Hxy |].
      apply Qlt_le_weak, Qinv_lt_0_compat, pow2_pos.
    + apply Qle_trans with (2 ^ (prec - 1) * 2 ^ expo y).
      * apply Qle_trans with (2 ^ prec * 2 ^ expo x).
        -- apply Qmult_le_compat_r; [| apply Qlt_le_weak, pow2_pos].
           rewrite <- (pow2_inject prec) by discriminate. rewrite <- Zle_Qle.
           apply (mant_bounds x NZx).
        -- rewrite <- !pow2_add. apply pow2_le. lia.
      * apply Qmult_le_compat_r; [| apply Qlt_le_weak, pow2_pos].
        rewrite <- (pow2_inject (prec - 1)) by discriminate. rewrite <- Zle_Qle.
        unfold mant. rewrite <- (rne_Z (2 ^ (prec - 1))). apply rne_le.
        rewrite (pow2_inject (prec - 1)) by discriminate.
        assert (Hey : (emin < expo y)%Z) by (pose proof (expo_ge_emin x); lia).
        pose proof (scaled_ge y NZy Hey) as G.
        rewrite (Qabs_pos y) in G by (apply Qlt_le_weak, Py). exact G.
Qed.

Lemma round_fixed (y : Q) (k : Z) :
  ~ y == 0 -> y == inject_Z k * 2 ^ expo y -> round y = Qred y.
Proof.
  intros NZ E. unfold round, mant. destruct (Qeq_bool y 0) eqn:Z0.
  - apply Qeq_bool_eq in Z0. contradiction.
  - apply Qred_complete. rewrite (rne_proper (y / 2 ^ expo y) (inject_Z k)).
    + rewrite rne_Z. symmetry. exact E.
    + transitivity ((inject_Z k * 2 ^ expo y) / 2 ^ expo y).
      * apply Qdiv_comp; [exact E | reflexivity].
      * apply Qdiv_mult_l, pow2_nz.
Qed.

Lemma ilog2_scaled (m e : Z) :
  (0 < m)%Z -> ilog2 (inject_Z m * 2 ^ e) = (Z.log2 m + e)%Z.
Proof.
  intro Hm. pose proof (Z.log2_spec m Hm) as [L U].
  pose proof (Z.log2_nonneg m) as N.
  apply ilog2_unique.
  - rewrite pow2_add. apply Qmult_le_compat_r; [| apply Qlt_le_weak, pow2_pos].
    rewrite <- (pow2_inject (Z.log2 m)) by exact N. rewrite <- Zle_Qle. exact L.
  - replace (Z.log2 m + e + 1)%Z with (Z.succ (Z.log2 m) + e)%Z by lia.
    rewrite pow2_add. apply Qmult_lt_compat_r; [apply pow2_pos |].
    rewrite <- (pow2_inject (Z.succ (Z.log2 m))) by lia. rewrite <- Zlt_Qlt. exact U.
Qed.

Lemma inject_Z_nz (m : Z) : m <> 0%Z -> ~ inject_Z m == 0.
Proof. intros H C. apply H. apply (inject_Z_injective m 0). exact C. Qed.

Lemma scaled_nz (m e : Z) : m <> 0%Z -> ~ inject_Z m * 2 ^ e == 0.
Proof.
  intros Hm C. apply (Qmult_integral_l _ _ (inject_Z_nz m Hm)) in C.
  exact (pow2_nz e C).
Qed.

Lemma Qabs_inject_Z (m : Z) : Qabs (inject_Z m) = inject_Z (Z.abs m).
Proof. reflexivity. Qed.

Lemma expo_scaled (m e : Z) :
  m <> 0%Z -> expo (inject_Z m * 2 ^ e) = Z.max (Z.log2 (Z.abs m) + e - (prec - 1)) emin.
Proof.
  intro Hm. unfold expo. f_equal. f_equal.
  rewrite <- (ilog2_scaled (Z.abs m) e) by lia.
  apply ilog2_proper.
  - apply Qabs_pos_lt, scaled_nz, Hm.
  - rewrite Qabs_Qmult, Qabs_inject_Z.
    rewrite (Qabs_pos (2 ^ e)) by (apply Qlt_le_weak, pow2_pos). reflexivity.
Qed.

Lemma round_dyadic (m e : Z) :
  (Z.abs m <= 2 ^ prec)%Z -> (emin <= e)%Z ->
  round (inject_Z m * 2 ^ e) = Qred (inject_Z m * 2 ^ e).
Proof.
  intros Hm He. destruct (Z.eq_dec m 0) as [-> | NZ].
  - rewrite round_eq0 by apply Qmult_0_l.
    symmetry. apply (Qred_complete _ 0). apply Qmult_0_l.
  - pose proof (expo_scaled m e NZ) as Ex.
    destruct (Z.eq_dec (Z.abs m) (2 ^ prec)) as [Top | Low].
    + apply (round_fixed _ (m / 2)); [apply scaled_nz, NZ |].
      rewrite Ex, Top. rewrite Z.log2_pow2 by discriminate.
      replace (Z.max (prec + e - (prec - 1)) emin) with (e + 1)%Z by (unfold prec in *; lia).
      rewrite pow2_add.
      assert (M : m = (2 * (m / 2))%Z).
      { apply Z.div_exact; [lia |]. unfold prec in Top.
        destruct (Z.abs_spec m) as [[_ A] | [_ A]]; rewrite A in Top.
        - rewrite Top. reflexivity.
        - replace m with (- 2 ^ 53)%Z by lia. reflexivity. }
      rewrite M at 1. rewrite inject_Z_mult. 
      change (2 ^ 1) with (inject_Z 2). ring.
    + assert (Lg : (Z.log2 (Z.abs m) < prec)%Z).
      { apply Z.log2_lt_pow2; lia. }
      set (e' := expo (inject_Z m * 2 ^ e)) in *.
      assert (Le : (e' <= e)%Z) by (unfold prec in *; lia).
      apply (round_fixed _ (m * 2 ^ (e - e'))); [apply scaled_nz, NZ |].
      fold e'. rewrite inject_Z_mult, (pow2_inject (e - e')) by lia.
      rewrite <- Qmult_assoc, <- pow2_add. replace (e - e' + e')%Z with e by lia.
      reflexivity.
Qed.

Lemma round_idem (x : Q) : round (round x) = round x.
Proof.
  destruct (Qeq_dec x 0) as [E | NZ].
  - rewrite (round_eq0 x E). reflexivity.
  - rewrite (round_proper _ _ (round_val x NZ)).
    rewrite round_dyadic.
    + unfold round. destruct (Qeq_bool x 0) eqn:Z0.
      * apply Qeq_bool_eq in Z0. contradiction.
      * reflexivity.
    + pose proof (mant_bounds x NZ). lia.
    + apply expo_ge_emin.
Qed.

End B64Facts.

(* ================================================================== *)
(** ** Facts about the Python built-ins *)

#[local] Open Scope Z_scope.

Lemma len_cons {A : Type} (x : A) (l : list A) : len (x :: l) = 1 + len l.
Proof. unfold len. cbn [List.length]. lia. Qed.

Lemma len_nonneg {A : Type} (l : list A) : 0 <= len l.
Proof. unfold len. lia. Qed.

Lemma pystr_eqb_nil (s : pystr) : pystr_eqb s [] = is_nil s.
Proof. unfold pystr_eqb. destruct s; destruct (list_eq_dec N.eq_dec _ _); try reflexivity; congruence. Qed.

Lemma dropwhile_nil {A : Type} (p : A -> bool) (l : list A) :
  forallb p l = true -> dropwhile p l = [].
Proof.
  induction l as [| x l IH]; [reflexivity |]. cbn. destruct (p x); [exact IH | discriminate].
Qed.

Lemma dropwhile_stops {A : Type} (p : A -> bool) (l : list A) :
  forallb p l = false -> exists x r, dropwhile p l = x :: r /\ p x = false.
Proof.
  induction l as [| x l IH]; [discriminate |]. cbn. destruct (p x) eqn:E.
  - exact IH.
  - intros _. exists x, l. split; [reflexivity | exact E].
Qed.

Lemma fold_left_max_ge (l : list Z) (x : Z) : x <= fold_left Z.max l x.
Proof.
  revert x. induction l as [| y l IH]; intro x; [apply Z.le_refl |].
  cbn. specialize (IH (Z.max x y)). lia.
Qed.

Lemma fold_left_max_in (l : list Z) (x y : Z) : In y l -> y <= fold_left Z.max l x.
Proof.
  revert x. induction l as [| z l IH]; intros x H; [contradiction |].
  cbn [fold_left]. destruct H as [-> | H].
  - pose proof (fold_left_max_ge l (Z.max x y)). lia.
  - apply IH, H.
Qed.

Lemma py_max_ge (l : list Z) (y : Z) : In y l -> y <= py_max l.
Proof.
  destruct l as [| x l]; [contradiction |]. intros [-> | H]; cbn [py_max].
  - apply fold_left_max_ge.
  - apply fold_left_max_in, H.
Qed.

Lemma len_app {A : Type} (l1 l2 : list A) : len (l1 ++ l2) = len l1 + len l2.
Proof. unfold len. rewrite length_app. lia. Qed.

Lemma len_filter_le {A : Type} (p : A -> bool) (l : list A) : len (filter p l) <= len l.
Proof.
  induction l as [| x l IH]; [apply Z.le_refl |].
  cbn [filter]. destruct (p x); rewrite !len_cons; lia.
Qed.

Lemma len_concat_le {A : Type} (t : list (list A)) (m : Z) :
  (forall row, In row t -> len row <= m) -> len (List.concat t) <= len t * m.
Proof.
  induction t as [| row t IH]; intro H; [cbn; lia |].
  cbn [List.concat]. rewrite len_app, len_cons.
  pose proof (H row (or_introl eq_refl)).
  assert (len (List.concat t) <= len t * m) by (apply IH; intros r Hr; apply H; right; exact Hr).
  lia.
Qed.

Lemma fold_left_add (l : list Z) (a : Z) : fold_left Z.add l a = a + py_sum l.
Proof.
  unfold py_sum. revert a. induction l as [| y l IH]; intro a; cbn; [lia |].
  rewrite (IH (a + y)), (IH y). lia.
Qed.

Lemma py_sum_const (c : Z) (l : list Z) : Forall (eq c) l -> py_sum l = c * len l.
Proof.
  induction 1 as [| y l E _ IH]; [cbn; lia |].
  subst y. rewrite len_cons. unfold py_sum. cbn [fold_left]. rewrite fold_left_add, IH. lia.
Qed.

Lemma insert_sorted_length (x : Z) (l : list Z) :
  List.length (insert_sorted x l) = S (List.length l).
Proof.
  induction l as [| y l IH]; [reflexivity |].
  cbn. destruct (x <=? y); cbn; [reflexivity | now rewrite IH].
Qed.

Lemma sorted_length (l : list Z) : List.length (sorted l) = List.length l.
Proof.
  induction l as [| x l IH]; [reflexivity |].
  change (sorted (x :: l)) with (insert_sorted x (sorted l)).
  rewrite insert_sorted_length, IH. reflexivity.
Qed.

Lemma sorted_const (c : Z) (l : list Z) : Forall (eq c) l -> sorted l = l.
Proof.
  induction 1 as [| y l E H IH]; [reflexivity |].
  subst y. change (sorted (c :: l)) with (insert_sorted c (sorted l)).
  rewrite IH. destruct H as [| z l' E' _]; [reflexivity |].
  subst z. cbn. rewrite Z.leb_refl. reflexivity.
Qed.

Lemma py_index_in_range (xs : list Z) (i : Z) :
  - len xs <= i < len xs -> exists x, py_index xs i = Ok x /\ In x xs.
Proof.
  intro H. unfold py_index.
  set (j := if i <? 0 then len xs + i else i).
  assert (Hj : 0 <= j < len xs) by (unfold j; destruct (Z.ltb_spec i 0); lia).
  destruct (Z.ltb_spec j 0) as [C | _]; [lia |].
  destruct (nth_error xs (Z.to_nat j)) as [x |] eqn:E.
  - exists x. split; [reflexivity | eapply nth_error_In; exact E].
  - apply nth_error_None in E. unfold len in Hj. lia.
Qed.

(* ================================================================== *)
(** ** Facts about the numpy model *)

Lemma fgt_irrefl (a : pyfloat) : fgt a a = false.
Proof.
  destruct a as [| x]; [reflexivity |]. cbn.
  assert (H : Qle_bool x x = true) by (apply Qle_bool_iff, Qle_refl).
  rewrite H. reflexivity.
Qed.

Lemma fgt_fle (x y : Q) : fgt (Fin x) (Fin y) = negb (fle (Fin x) (Fin y)).
Proof. reflexivity. Qed.

Lemma float_of_int_0 : float_of_int 0 = Fin 0%Q.
Proof. reflexivity. Qed.

Lemma fmul_0_l (g : Q) : fmul (Fin 0%Q) (Fin g) = Fin 0%Q.
Proof. reflexivity. Qed.

Lemma lerp_fin (a b : Z) (g : Q) : exists p, lerp a b (Fin g) = Fin p.
Proof.
  unfold lerp. destruct (fle (float_lit 5 10) (Fin g)); cbn; eexists; reflexivity.
Qed.

Lemma lerp_same (c : Z) (g : Q) : lerp c c (Fin g) = float_of_int c.
Proof.
  unfold lerp. rewrite Z.sub_diag, float_of_int_0.
  destruct (fle (float_lit 5 10) (Fin g)).
  - change (fsub (float_of_int 1) (Fin g)) with (Fin (B64.round (B64.round (inject_Z 1) - g))).
    rewrite fmul_0_l. unfold float_of_int. cbn. f_equal.
    rewrite (B64Facts.round_proper _ (B64.round (inject_Z c))) by (unfold Qminus; apply Qplus_0_r).
    apply B64Facts.round_idem.
  - rewrite fmul_0_l. unfold float_of_int. cbn. f_equal.
    rewrite (B64Facts.round_proper _ (B64.round (inject_Z c))) by apply Qplus_0_r.
    apply B64Facts.round_idem.
Qed.

Lemma Qfloor_nonneg (v : Q) : (0 <= v)%Q -> 0 <= Qfloor v.
Proof. intro H. apply (Qfloor_resp_le 0 v) in H. exact H. Qed.

Lemma Qfloor_lt_Z (v : Q) (k : Z) : (v < inject_Z k)%Q -> Qfloor v < k.
Proof.
  intro H. rewrite Zlt_Qlt. eapply Qle_lt_trans; [apply Qfloor_le | exact H].
Qed.

(** On a non-empty sample and a non-negative [q] the percentile reads two
    elements of the ordered sample and interpolates between them. *)
Lemma np_percentile_reads (xs : list Z) (q : Z) :
  xs <> [] -> 0 <= q ->
  exists a b g,
    In a (sorted xs) /\ In b (sorted xs)
    /\ np_percentile xs q = Ok (lerp a b (Fin g)).
Proof.
  intros NE Hq. unfold np_percentile.
  assert (Hn : 1 <= len xs).
  { destruct xs as [| x xs]; [contradiction |]. rewrite len_cons. pose proof (len_nonneg xs). lia. }
  assert (Hs : len (sorted xs) = len xs) by (unfold len; rewrite sorted_length; reflexivity).
  set (n := len xs) in *.
  change (fmul (float_of_int (n - 1)) (float_lit q 100))
    with (Fin (B64.round (B64.round (inject_Z (n - 1)) * B64.round (q # 100)))).
  set (v := B64.round (B64.round (inject_Z (n - 1)) * B64.round (q # 100))).
  assert (Hv : (0 <= v)%Q).
  { apply B64Facts.round_nonneg. apply Qmult_le_0_compat; apply B64Facts.round_nonneg.
    - change 0%Q with (inject_Z 0). rewrite <- Zle_Qle. lia.
    - unfold Qle; cbn. lia. }
  cbv beta iota zeta.
  destruct (Qle_bool (inject_Z (n - 1)) v) eqn:AB.
  - destruct (py_index_in_range (sorted xs) (-1)) as (a & Ea & Ia); [lia |].
    rewrite Ea. cbn [bind].
    change (fsub (Fin v) (float_of_int (-1)))
      with (Fin (B64.round (v - B64.round (inject_Z (-1))))).
    exists a, a, (B64.round (v - B64.round (inject_Z (-1)))). auto.
  - assert (Lt : (v < inject_Z (n - 1))%Q).
    { apply Qnot_le_lt. intro C. apply Qle_bool_iff in C. congruence. }
    pose proof (Qfloor_nonneg v Hv) as F0. pose proof (Qfloor_lt_Z v (n - 1) Lt) as F1.
    destruct (py_index_in_range (sorted xs) (Qfloor v)) as (a & Ea & Ia); [lia |].
    destruct (py_index_in_range (sorted xs) (Qfloor v + 1)) as (b & Eb & Ib); [lia |].
    rewrite Ea, Eb. cbn [bind].
    change (fsub (Fin v) (float_of_int (Qfloor v)))
      with (Fin (B64.round (v - B64.round (inject_Z (Qfloor v))))).
    exists a, b, (B64.round (v - B64.round (inject_Z (Qfloor v)))). auto.
Qed.

Lemma np_percentile_ok (xs : list Z) (q : Z) :
  xs <> [] -> 0 <= q -> exists p, np_percentile xs q = Ok (Fin p).
Proof.
  intros NE Hq. destruct (np_percentile_reads xs q NE Hq) as (a & b & g & _ & _ & E).
  destruct (lerp_fin a b g) as [p Ep]. exists p. rewrite E, Ep. reflexivity.
Qed.

Lemma np_percentile_const (c : Z) (xs : list Z) (q : Z) :
  xs <> [] -> 0 <= q -> Forall (eq c) xs -> np_percentile xs q = Ok (float_of_int c).
Proof.
  intros NE Hq Hc. destruct (np_percentile_reads xs q NE Hq) as (a & b & g & Ia & Ib & E).
  rewrite (sorted_const c xs Hc) in Ia, Ib.
  rewrite Forall_forall in Hc.
  rewrite <- (Hc a Ia) in E. rewrite <- (Hc b Ib) in E.
  rewrite E, lerp_same. reflexivity.
Qed.

Lemma np_mean_const (c : Z) (xs : list Z) :
  xs <> [] -> Forall (eq c) xs -> np_mean xs = float_of_int c.
Proof.
  intros NE Hc. destruct xs as [| x xs]; [contradiction |].
  unfold np_mean, float_of_int. f_equal. apply B64Facts.round_proper.
  rewrite (py_sum_const c _ Hc).
  assert (Hn : ~ (inject_Z (len (x :: xs)) == 0)%Q).
  { apply B64Facts.inject_Z_nz. rewrite len_cons. pose proof (len_nonneg xs). lia. }
  rewrite inject_Z_mult. apply Qdiv_mult_l. exact Hn.
Qed.

(* ================================================================== *)
(** ** Facts about the table classifier *)

Section ClassifierFacts.

Variable isspace : N -> bool.
Variable isalpha : N -> bool.
Variable repr_list : list cell -> pystr.
Variable np_std_nonempty : list Z -> pyfloat.

(** A stripped string is empty exactly when the string holds whitespace
    only. *)
Lemma strip_is_empty (s : pystr) :
  pystr_eqb (strip isspace s) [] = forallb isspace s.
Proof.
  rewrite pystr_eqb_nil. unfold strip.
  destruct (forallb isspace s) eqn:E.
  - rewrite (dropwhile_nil _ _ E). reflexivity.
  - destruct (dropwhile_stops _ _ E) as (x & r & Ed & Hx). rewrite Ed.
    assert (F : forallb isspace (rev (x :: r)) = false).
    { cbn [rev]. rewrite forallb_app. cbn. rewrite Hx. apply andb_false_iff. right. reflexivity. }
    destruct (dropwhile_stops _ _ F) as (y & r' & Ed' & _). rewrite Ed'.
    cbn [rev]. destruct (rev r'); reflexivity.
Qed.

(** Line 16 on one cell: it raises on a non-empty list, and otherwise
    tells whether the cell is blank. *)
Lemma is_empty_cell_spec (c : cell) :
  is_empty_cell isspace c
  = if nonempty_list c then Err AttributeError else Ok (blank_cell isspace c).
Proof.
  destruct c as [| s | items]; [reflexivity | |].
  - destruct s as [| ch s]; [reflexivity |].
    unfold is_empty_cell. cbn [truthy is_nil negb nonempty_list blank_cell cell_strip_is_empty].
    rewrite strip_is_empty. reflexivity.
  - destruct items; reflexivity.
Qed.

Lemma count_if_empty_cells (cs : list cell) :
  count_if (is_empty_cell isspace) cs
  = if existsb nonempty_list cs then Err AttributeError
    else Ok (len (filter (blank_cell isspace) cs)).
Proof.
  induction cs as [| c cs IH]; [reflexivity |].
  cbn [count_if existsb filter]. rewrite is_empty_cell_spec, IH.
  destruct (nonempty_list c); [reflexivity |].
  cbn [bind orb]. destruct (existsb nonempty_list cs); [reflexivity |].
  cbn [bind]. destruct (blank_cell isspace c); [rewrite len_cons |]; f_equal; lia.
Qed.

Lemma empty_cells_spec (t : table) :
  empty_cells isspace t
  = if existsb nonempty_list (cells t) then Err AttributeError
    else Ok (len (filter (blank_cell isspace) (cells t))).
Proof. apply count_if_empty_cells. Qed.

Lemma num_cols_nonneg (t : table) : 0 <= num_cols t.
Proof.
  unfold num_cols. destruct t as [| row t]; [cbn; lia |].
  cbn [is_nil map py_max]. pose proof (fold_left_max_ge (map len t) (len row)).
  pose proof (len_nonneg row). lia.
Qed.

Lemma cells_le_total (t : table) : len (cells t) <= total_cells t.
Proof.
  unfold cells, total_cells, num_rows, num_cols. destruct t as [| row t]; [cbn; lia |].
  cbn [is_nil]. apply len_concat_le. intros r Hr. apply py_max_ge, in_map, Hr.
Qed.

Lemma total_cells_nonneg (t : table) : 0 <= total_cells t.
Proof.
  unfold total_cells, num_rows. pose proof (num_cols_nonneg t). pose proof (len_nonneg t). nia.
Qed.

Lemma merged_cell_ratio_ok (t : table) :
  existsb nonempty_list (cells t) = false ->
  exists r, merged_cell_ratio isspace t = Ok (Fin r).
Proof.
  intro H. unfold merged_cell_ratio. rewrite empty_cells_spec, H. cbn [bind].
  destruct (total_cells t =? 0) eqn:E; [eexists; reflexivity |].
  unfold int_truediv. rewrite E. eexists; reflexivity.
Qed.

Lemma merged_cell_ratio_raises (t : table) :
  existsb nonempty_list (cells t) = true ->
  merged_cell_ratio isspace t = Err AttributeError.
Proof.
  intro H. unfold merged_cell_ratio. rewrite empty_cells_spec, H. reflexivity.
Qed.

Lemma high_density_ok (t : table) :
  exists dense, high_density isspace repr_list t = Ok dense.
Proof.
  unfold high_density. destruct (word_counts isspace repr_list t) as [| w ws] eqn:E.
  - exists false. reflexivity.
  - destruct (np_percentile_ok (w :: ws) 75) as [p Ep]; [discriminate | lia |].
    cbn [is_nil]. rewrite Ep. eexists. reflexivity.
Qed.

(** The sum of line 26 for each of the thirty-two outcomes of the five
    signals: a finite float between 0 and 1.6. *)
Lemma weights_sum_range (b1 b2 b3 b4 b5 : bool) :
  exists s,
    fadd (fadd (fadd (fadd (weight (float_lit 4 10) b1) (weight (float_lit 3 10) b2))
                     (weight (float_lit 4 10) b3))
               (weight (float_lit 3 10) b4))
         (weight (float_lit 2 10) b5) = Fin s
    /\ fle (Fin 0%Q) (Fin s) = true /\ fle (Fin s) (float_lit 16 10) = true.
Proof.
  destruct b1, b2, b3, b4, b5; eexists; (split; [vm_compute; reflexivity | split; vm_compute; reflexivity]).
Qed.

(** The same thirty-two sums computed by [SFadd]: the rounding of
    [B64.round] is that of IEEE 754 on every sum the score can take. *)
Lemma weights_sum_ieee (b1 b2 b3 b4 b5 : bool) :
  fadd (fadd (fadd (fadd (weight (float_lit 4 10) b1) (weight (float_lit 3 10) b2))
                   (weight (float_lit 4 10) b3))
             (weight (float_lit 3 10) b4))
       (weight (float_lit 2 10) b5)
  = sf_value
      (SFadd 53 1024
         (SFadd 53 1024
            (SFadd 53 1024
               (SFadd 53 1024 (sf_weight 4 b1) (sf_weight 3 b2))
               (sf_weight 4 b3))
            (sf_weight 3 b4))
         (sf_weight 2 b5)).
Proof. destruct b1, b2, b3, b4, b5; vm_compute; reflexivity. Qed.

Lemma thresholds_ieee :
  float_lit 2 10 = sf_value (sf_lit 2 10)
  /\ float_lit 3 10 = sf_value (sf_lit 3 10)
  /\ float_lit 6 10 = sf_value (sf_lit 6 10)
  /\ float_lit 16 10 = sf_value (sf_lit 16 10).
Proof. repeat split; vm_compute; reflexivity. Qed.

Lemma score_ok (t : table) :
  existsb nonempty_list (cells t) = false ->
  exists s,
    score isspace isalpha repr_list np_std_nonempty t = Ok (Fin s)
    /\ fle (Fin 0%Q) (Fin s) = true /\ fle (Fin s) (float_lit 16 10) = true.
Proof.
  intro H. destruct (merged_cell_ratio_ok t H) as [r Er].
  destruct (high_density_ok t) as [dense Ed].
  unfold score. rewrite Er, Ed. cbn [bind].
  unfold merged_term, variation_term, nested_term, header_term, density_term.
  destruct (weights_sum_range (fgt (Fin r) (float_lit 2 10))
              (row_length_variation np_std_nonempty t)
              (nested_table isspace repr_list t)
              (1 <? header_count isalpha t) dense) as (s & E & R).
  exists s. rewrite E. split; [reflexivity | exact R].
Qed.

Lemma score_raises (t : table) :
  existsb nonempty_list (cells t) = true ->
  score isspace isalpha repr_list np_std_nonempty t = Err AttributeError.
Proof.
  intro H. unfold score. rewrite (merged_cell_ratio_raises t H). reflexivity.
Qed.

(** Line 33 as a step function of a finite score. *)
Lemma complexity_label_steps (s : Q) :
  let l := complexity_label (Fin s) in
  (l = Simple <-> fle (Fin s) (float_lit 3 10) = true)
  /\ (l = Moderate <->
      fgt (Fin s) (float_lit 3 10) = true /\ fle (Fin s) (float_lit 6 10) = true)
  /\ (l = Complex <-> fgt (Fin s) (float_lit 6 10) = true).
Proof.
  cbv zeta. unfold complexity_label, float_lit. rewrite !fgt_fle.
  destruct (fle (Fin s) (Fin (B64.round (3 # 10)))) eqn:E3;
  destruct (fle (Fin s) (Fin (B64.round (6 # 10)))) eqn:E6; cbn [negb];
  repeat split; try discriminate; try reflexivity; try (intros [? ?]; discriminate).
  all: exfalso.
  all: unfold fle in E3, E6.
  all: apply Qle_bool_iff in E3.
  all: assert (C : Qle_bool s (B64.round (6 # 10)) = true)
         by (apply Qle_bool_iff; eapply Qle_trans; [exact E3 | vm_compute; discriminate]).
  all: congruence.
Qed.

(** What a returning call returns: the sum of the five summands of line
    26, in the order of the source, and the label of that sum. *)
Lemma returned_score (t : table) (s : pyfloat) (l : table_label) :
  calculate_table_complexity isspace isalpha repr_list np_std_nonempty t = Ok (s, l) ->
  exists ratio dense,
    merged_cell_ratio isspace t = Ok ratio
    /\ high_density isspace repr_list t = Ok dense
    /\ s = fadd (fadd (fadd (fadd (merged_term ratio)
                                  (variation_term np_std_nonempty t))
                            (nested_term isspace repr_list t))
                      (header_term isalpha t))
                (density_term dense)
    /\ l = complexity_label s.
Proof.
  unfold calculate_table_complexity, score. intro H.
  destruct (merged_cell_ratio isspace t) as [ratio | e]; [| discriminate].
  destruct (high_density isspace repr_list t) as [dense | e]; [| discriminate].
  cbn [bind] in H. exists ratio, dense.
  split; [reflexivity |]. split; [reflexivity |].
  injection H as Hs Hl. rewrite <- Hl, <- Hs. split; reflexivity.
Qed.

End ClassifierFacts.

(* ================================================================== *)
(** ** The document scorer *)

(** C1: for every four measurements the scorer returns
    [finalScore = complexTableCount*20 + imageCount*10 + layout], where
    [layout] is [columnCount*20 + denseParagraphCount*5] if
    [columnCount > 1] or [denseParagraphCount > 0] and [0] otherwise; the
    level is High iff the score exceeds 100, Medium iff it lies in (50, 100],
    Low iff it is at most 50; (2, 3, 1, 0) gives 70 and Medium, (2, 3, 2, 0)
    gives 110 and High.  The measurements need not even be non-negative. *)
Theorem C1_final_score_and_level (complexTableCount imageCount columnCount denseParagraphCount : Z) :
  let r := make_report complexTableCount imageCount columnCount denseParagraphCount in
  final_complexity_score r
  = complexTableCount * 20 + imageCount * 10
    + (if (1 <? columnCount) || (0 <? denseParagraphCount)
       then columnCount * 20 + denseParagraphCount * 5 else 0)
  /\ (complexity_level_of r = High <-> 100 < final_complexity_score r)
  /\ (complexity_level_of r = Medium <->
      50 < final_complexity_score r /\ final_complexity_score r <= 100)
  /\ (complexity_level_of r = Low <-> final_complexity_score r <= 50)
  /\ final_complexity_score (make_report 2 3 1 0) = 70
  /\ complexity_level_of (make_report 2 3 1 0) = Medium
  /\ final_complexity_score (make_report 2 3 2 0) = 110
  /\ complexity_level_of (make_report 2 3 2 0) = High.
Proof.
  cbv zeta. cbn [make_report final_complexity_score complexity_level_of].
  set (s := final_score complexTableCount imageCount columnCount denseParagraphCount).
  split.
  - unfold s, final_score, table_score, layout_score, image_score.
    destruct ((1 <? columnCount) || (0 <? denseParagraphCount)); lia.
  - unfold level_of_score.
    destruct (Z.ltb_spec 100 s) as [H1 | H1]; destruct (Z.ltb_spec 50 s) as [H2 | H2];
      repeat split; intros; try discriminate; try lia; try reflexivity.
Qed.

(** C10: for non-negative measurements the final score is a non-negative
    multiple of 5. *)
Theorem C10_final_score_multiple_of_5
  (complexTableCount imageCount columnCount denseParagraphCount : Z) :
  0 <= complexTableCount -> 0 <= imageCount ->
  0 <= columnCount -> 0 <= denseParagraphCount ->
  let s := final_complexity_score
             (make_report complexTableCount imageCount columnCount denseParagraphCount) in
  0 <= s /\ exists k, 0 <= k /\ s = 5 * k.
Proof.
  intros Ht Hi Hc Hd. cbv zeta. cbn [make_report final_complexity_score].
  unfold final_score, table_score, layout_score, image_score.
  destruct ((1 <? columnCount) || (0 <? denseParagraphCount)).
  - split; [lia |].
    exists (4 * complexTableCount + 4 * columnCount + denseParagraphCount + 2 * imageCount). lia.
  - split; [lia |]. exists (4 * complexTableCount + 2 * imageCount). lia.
Qed.

Lemma C10_witness :
  let s := final_complexity_score (make_report 2 3 2 7) in
  0 <= s /\ exists k, 0 <= k /\ s = 5 * k.
Proof. apply (C10_final_score_multiple_of_5 2 3 2 7); lia. Defined.

(* ================================================================== *)
(** ** The table classifier: the five signals *)

Section ClassifierClaims.

Variable isspace : N -> bool.
Variable isalpha : N -> bool.
Variable repr_list : list cell -> pystr.
Variable np_std_nonempty : list Z -> pyfloat.

Lemma weight_on (w : pyfloat) (b : bool) :
  w <> Fin 0%Q -> (weight w b = w <-> b = true) /\ (weight w b = Fin 0%Q <-> b = false).
Proof.
  intro H. destruct b; cbn; repeat split; intros; try reflexivity; try discriminate; congruence.
Qed.

Lemma float_lit_4_10_nz : float_lit 4 10 <> Fin 0%Q.
Proof. vm_compute. discriminate. Qed.

Lemma float_lit_3_10_nz : float_lit 3 10 <> Fin 0%Q.
Proof. vm_compute. discriminate. Qed.

Lemma float_lit_2_10_nz : float_lit 2 10 <> Fin 0%Q.
Proof. vm_compute. discriminate. Qed.

(** The float comparison of line 27 against the exact ratio: the quotient
    of two counts exceeds the float [0.2] only if it exceeds one fifth, and
    it does so whenever it exceeds one fifth and the denominator is at most
    2^52. *)
Lemma ratio_gt_fifth_sound (e t : Z) :
  0 <= e -> 0 < t -> 5 * e <= t ->
  fgt (Fin (B64.round (inject_Z e / inject_Z t))) (float_lit 2 10) = false.
Proof.
  intros He Ht H. unfold fgt, float_lit. apply negb_false_iff, Qle_bool_iff.
  rewrite (B64Facts.round_proper (2 # 10) (1 # 5)) by reflexivity.
  apply B64Facts.round_le.
  - apply Qle_shift_div_l; [apply B64Facts.inject_Z_pos; exact Ht |].
    rewrite Qmult_0_l. change 0%Q with (inject_Z 0). rewrite <- Zle_Qle. exact He.
  - apply Qle_shift_div_r; [apply B64Facts.inject_Z_pos; exact Ht |].
    unfold Qle, Qmult, inject_Z; cbn [Qnum Qden]. lia.
Qed.

Lemma ratio_gt_fifth_complete (e t : Z) :
  0 < t <= 2 ^ 52 -> t < 5 * e ->
  fgt (Fin (B64.round (inject_Z e / inject_Z t))) (float_lit 2 10) = true.
Proof.
  intros Ht H. unfold fgt, float_lit. apply negb_true_iff.
  destruct (Qle_bool (B64.round (inject_Z e / inject_Z t)) (B64.round (2 # 10))) eqn:C;
    [| reflexivity].
  exfalso. apply Qle_bool_iff in C.
  set (low := ((1 # 5) + (1 # 5) * (1 # 4503599627370496))%Q).
  assert (L : (low <= inject_Z e / inject_Z t)%Q).
  { apply Qle_shift_div_l; [apply B64Facts.inject_Z_pos; lia |].
    unfold low, Qle, Qmult, Qplus, inject_Z; cbn [Qnum Qden].
    change (2 ^ 52) with 4503599627370496 in Ht. lia. }
  assert (M : (B64.round low <= B64.round (inject_Z e / inject_Z t))%Q).
  { apply B64Facts.round_le; [unfold low; vm_compute; discriminate | exact L]. }
  assert (G : (B64.round (2 # 10) < B64.round low)%Q) by (vm_compute; reflexivity).
  apply (Qlt_not_le _ _ G). eapply Qle_trans; eassumption.
Qed.

(** C5: the empty-cell signal.  With [e] the number of blank cells ([None],
    a string of whitespace only, an empty list) and the ratio of line 17,
    the signal contributes 0.4 iff the ratio exceeds the float [0.2], and 0
    otherwise; the ratio is 0 when rows times widest row is 0; a table whose
    blank cells are at most a fifth of the total, so one with ratio exactly
    0.2, does not trigger; and up to 2^52 cells the signal fires iff the
    exact ratio exceeds one fifth.  The contribution is to the score that
    [calculate_table_complexity] returns: that score is the sum of line 26
    with this term as its first summand. *)
Theorem C5_empty_cell_signal (t : table) (ratio : pyfloat) :
  merged_cell_ratio isspace t = Ok ratio ->
  let e := len (filter (blank_cell isspace) (cells t)) in
  empty_cells isspace t = Ok e
  /\ total_cells t = len t * (if is_nil t then 0 else py_max (map len t))
  /\ (total_cells t = 0 -> ratio = Fin 0%Q)
  /\ (merged_term ratio = float_lit 4 10 <-> fgt ratio (float_lit 2 10) = true)
  /\ (merged_term ratio = Fin 0%Q <-> fgt ratio (float_lit 2 10) = false)
  /\ (5 * e <= total_cells t -> merged_term ratio = Fin 0%Q)
  /\ (total_cells t <= 2 ^ 52 ->
      (merged_term ratio = float_lit 4 10 <-> total_cells t < 5 * e))
  /\ (forall s l,
        calculate_table_complexity isspace isalpha repr_list np_std_nonempty t
        = Ok (s, l) ->
        exists dense,
          high_density isspace repr_list t = Ok dense
          /\ s = fadd (fadd (fadd (fadd (merged_term ratio)
                                        (variation_term np_std_nonempty t))
                                  (nested_term isspace repr_list t))
                            (header_term isalpha t))
                      (density_term dense)).
Proof.
  intro H. cbv zeta.
  assert (Link : forall s l,
             calculate_table_complexity isspace isalpha repr_list np_std_nonempty t
             = Ok (s, l) ->
             exists dense,
               high_density isspace repr_list t = Ok dense
               /\ s = fadd (fadd (fadd (fadd (merged_term ratio)
                                             (variation_term np_std_nonempty t))
                                       (nested_term isspace repr_list t))
                                 (header_term isalpha t))
                           (density_term dense)).
  { intros s l R.
    destruct (returned_score isspace isalpha repr_list np_std_nonempty t s l R)
      as (ratio' & dense & Er & Ed & Es & _).
    rewrite H in Er. injection Er as <-. exists dense. split; assumption. }
  set (e := len (filter (blank_cell isspace) (cells t))).
  pose proof (weight_on (float_lit 4 10) (fgt ratio (float_lit 2 10)) float_lit_4_10_nz)
    as [Won Woff]. fold (merged_term ratio) in Won, Woff.
  pose proof (total_cells_nonneg t) as Tn.
  assert (En : 0 <= e) by apply len_nonneg.
  assert (Et : e <= total_cells t).
  { pose proof (len_filter_le (blank_cell isspace) (cells t)).
    pose proof (cells_le_total t). unfold e. lia. }
  unfold merged_cell_ratio in H. rewrite empty_cells_spec in H |- *.
  destruct (existsb nonempty_list (cells t)); [discriminate |].
  cbn [bind] in H. fold e in H.
  assert (R : ratio = if total_cells t =? 0 then Fin 0%Q
                      else Fin (B64.round (inject_Z e / inject_Z (total_cells t)))).
  { unfold int_truediv in H. destruct (total_cells t =? 0); congruence. }
  clear H.
  split; [reflexivity |]. split; [reflexivity |].
  split; [intro Z0; rewrite R, Z0; reflexivity |].
  split; [exact Won |]. split; [exact Woff |].
  assert (Sound : 5 * e <= total_cells t -> fgt ratio (float_lit 2 10) = false).
  { intro Le. rewrite R. destruct (Z.eqb_spec (total_cells t) 0) as [Z0 | NZ].
    - reflexivity.
    - apply ratio_gt_fifth_sound; lia. }
  split; [intro Le; apply Woff, Sound, Le |].
  split; [| exact Link].
  intro Small. rewrite Won. split.
  - intro Fires. destruct (Z.lt_ge_cases (total_cells t) (5 * e)) as [Lt | Ge]; [exact Lt |].
    rewrite (Sound Ge) in Fires. discriminate.
  - intro Lt. rewrite R. destruct (Z.eqb_spec (total_cells t) 0) as [Z0 | NZ]; [lia |].
    apply ratio_gt_fifth_complete; lia.
Qed.

(** C3: the empty table gets score 0 and label Simple, without raising;
    and no division can fail on any table: the ratio never raises a division
    error and is 0 when the table has no cell position, the mean word count
    is 0 and the density signal false when no cell is non-empty, the mean is
    never not-a-number and the percentile never raises. *)
Theorem C3_empty_table_is_simple (t : table) :
  calculate_table_complexity isspace isalpha repr_list np_std_nonempty []
  = Ok (Fin 0%Q, Simple)
  /\ merged_cell_ratio isspace t <> Err ZeroDivisionError
  /\ (total_cells t = 0 -> merged_cell_ratio isspace t = Ok (Fin 0%Q))
  /\ (word_counts isspace repr_list t = [] ->
      avg_word_count isspace repr_list t = Fin 0%Q
      /\ high_density isspace repr_list t = Ok false)
  /\ avg_word_count isspace repr_list t <> NaN
  /\ (exists dense, high_density isspace repr_list t = Ok dense).
Proof.
  split; [reflexivity |].
  split.
  { destruct (existsb nonempty_list (cells t)) eqn:E.
    - rewrite (merged_cell_ratio_raises isspace t E). discriminate.
    - destruct (merged_cell_ratio_ok isspace t E) as [r Er]. rewrite Er. discriminate. }
  split.
  { intro Z0. unfold merged_cell_ratio. rewrite empty_cells_spec.
    assert (C : cells t = []).
    { pose proof (cells_le_total t) as H. rewrite Z0 in H.
      destruct (cells t) as [| c cs]; [reflexivity |].
      rewrite len_cons in H. pose proof (len_nonneg cs). lia. }
    rewrite C. cbn [existsb filter bind]. rewrite Z0. reflexivity. }
  split.
  { intro W. unfold avg_word_count, high_density. rewrite W. split; reflexivity. }
  split.
  { unfold avg_word_count. destruct (word_counts isspace repr_list t); cbn; discriminate. }
  apply high_density_ok.
Qed.

(** C6: for every table of text and empty cells (every table on which line
    16 does not raise) the classifier returns a finite score between 0 and
    1.6, and the label is the step function of the score: Simple iff the
    score is at most 0.3, Moderate iff it is above 0.3 and at most 0.6,
    Complex iff it is above 0.6. *)
Theorem C6_score_range_and_label (t : table) :
  existsb nonempty_list (cells t) = false ->
  exists s l,
    calculate_table_complexity isspace isalpha repr_list np_std_nonempty t = Ok (Fin s, l)
    /\ fle (Fin 0%Q) (Fin s) = true
    /\ fle (Fin s) (float_lit 16 10) = true
    /\ (l = Simple <-> fle (Fin s) (float_lit 3 10) = true)
    /\ (l = Moderate <->
        fgt (Fin s) (float_lit 3 10) = true /\ fle (Fin s) (float_lit 6 10) = true)
    /\ (l = Complex <-> fgt (Fin s) (float_lit 6 10) = true).
Proof.
  intro H. destruct (score_ok isspace isalpha repr_list np_std_nonempty t H)
    as (s & E & Lo & Hi).
  exists s, (complexity_label (Fin s)).
  unfold calculate_table_complexity. rewrite E. cbn [bind].
  split; [reflexivity |]. split; [exact Lo |]. split; [exact Hi |].
  apply complexity_label_steps.
Qed.

(** C8: the density signal contributes 0.2 iff the mean word count of the
    non-empty cells is strictly greater than the 75th percentile of the same
    word counts, and nothing when there is no non-empty cell; when all
    non-empty cells have the same word count it does not fire.  The
    contribution is to the score that [calculate_table_complexity] returns:
    that score is the sum of line 26 with this term as its last summand. *)
Theorem C8_high_density_signal (t : table) (dense : bool) :
  high_density isspace repr_list t = Ok dense ->
  let wc := word_counts isspace repr_list t in
  wc = map (fun c => len (split isspace (py_str repr_list c))) (filter truthy (cells t))
  /\ (density_term dense = float_lit 2 10 <-> dense = true)
  /\ (density_term dense = Fin 0%Q <-> dense = false)
  /\ (wc = [] -> dense = false)
  /\ (wc <> [] ->
      exists p75, np_percentile wc 75 = Ok p75 /\ dense = fgt (np_mean wc) p75)
  /\ (forall c, Forall (eq c) wc -> dense = false)
  /\ (forall s l,
        calculate_table_complexity isspace isalpha repr_list np_std_nonempty t
        = Ok (s, l) ->
        exists ratio,
          merged_cell_ratio isspace t = Ok ratio
          /\ s = fadd (fadd (fadd (fadd (merged_term ratio)
                                        (variation_term np_std_nonempty t))
                                  (nested_term isspace repr_list t))
                            (header_term isalpha t))
                      (density_term dense)).
Proof.
  intro H. cbv zeta.
  assert (Link : forall s l,
             calculate_table_complexity isspace isalpha repr_list np_std_nonempty t
             = Ok (s, l) ->
             exists ratio,
               merged_cell_ratio isspace t = Ok ratio
               /\ s = fadd (fadd (fadd (fadd (merged_term ratio)
                                             (variation_term np_std_nonempty t))
                                       (nested_term isspace repr_list t))
                                 (header_term isalpha t))
                           (density_term dense)).
  { intros s l R.
    destruct (returned_score isspace isalpha repr_list np_std_nonempty t s l R)
      as (ratio & dense' & Er & Ed & Es & _).
    rewrite H in Ed. injection Ed as <-. exists ratio. split; assumption. }
  split; [reflexivity |].
  split; [apply (weight_on _ dense float_lit_2_10_nz) |].
  split; [apply (weight_on _ dense float_lit_2_10_nz) |].
  cut ((word_counts isspace repr_list t = [] -> dense = false)
       /\ (word_counts isspace repr_list t <> [] ->
           exists p75,
             np_percentile (word_counts isspace repr_list t) 75 = Ok p75
             /\ dense = fgt (np_mean (word_counts isspace repr_list t)) p75)
       /\ (forall c, Forall (eq c) (word_counts isspace repr_list t) -> dense = false)).
  { intros (A & B & C). split; [exact A |]. split; [exact B |]. split; [exact C | exact Link]. }
  clear Link.
  unfold high_density, avg_word_count in H.
  destruct (word_counts isspace repr_list t) as [| w ws] eqn:W.
  - cbn in H. split; [congruence |]. split; [congruence |]. congruence.
  - cbn [is_nil] in H. split; [discriminate |]. split.
    + intros _. destruct (np_percentile (w :: ws) 75) as [p75 | err]; [| discriminate].
      exists p75. cbn [bind] in H. split; congruence.
    + intros c Hc.
      rewrite (np_percentile_const c (w :: ws) 75) in H by (try discriminate; try lia; exact Hc).
      rewrite (np_mean_const c (w :: ws)) in H by (try discriminate; exact Hc).
      cbn [bind] in H. rewrite fgt_irrefl in H. congruence.
Qed.

Lemma in_str_cells (s : pystr) (row : list cell) :
  In s (str_cells row) <-> In (CStr s) row.
Proof.
  unfold str_cells. rewrite in_flat_map. split.
  - intros (c & Hc & Hs). destruct c; cbn in Hs; try contradiction.
    destruct Hs as [-> | []]. exact Hc.
  - intro H. exists (CStr s). split; [exact H | left; reflexivity].
Qed.

(** C4, as the code has it: the header signal contributes 0.3 iff, among
    the first three rows, strictly more than one row has every string cell
    non-empty and purely alphabetic (cells that are not strings are
    ignored); an empty string cell keeps its row from counting.  The
    contribution is to the score that [calculate_table_complexity] returns:
    that score is the sum of line 26 with this term as its fourth summand. *)
Theorem C4_header_signal (t : table) :
  (header_term isalpha t = float_lit 3 10 <-> 1 < header_count isalpha t)
  /\ (header_term isalpha t = Fin 0%Q <-> header_count isalpha t <= 1)
  /\ header_count isalpha t = len (filter (header_row isalpha) (firstn 3 t))
  /\ (forall row,
        header_row isalpha row = true <->
        forall s, In (CStr s) row -> s <> [] /\ Forall (fun ch => isalpha ch = true) s)
  /\ (forall row, In (CStr []) row -> header_row isalpha row = false)
  /\ (forall s l,
        calculate_table_complexity isspace isalpha repr_list np_std_nonempty t
        = Ok (s, l) ->
        exists ratio dense,
          merged_cell_ratio isspace t = Ok ratio
          /\ high_density isspace repr_list t = Ok dense
          /\ s = fadd (fadd (fadd (fadd (merged_term ratio)
                                        (variation_term np_std_nonempty t))
                                  (nested_term isspace repr_list t))
                            (header_term isalpha t))
                      (density_term dense)).
Proof.
  pose proof (weight_on (float_lit 3 10) (1 <? header_count isalpha t) float_lit_3_10_nz)
    as [Won Woff]. fold (header_term isalpha t) in Won, Woff.
  split; [rewrite Won; apply Z.ltb_lt |].
  split; [rewrite Woff; apply Z.ltb_ge |].
  split; [reflexivity |].
  assert (Row : forall row,
             header_row isalpha row = true <->
             forall s, In (CStr s) row -> s <> [] /\ Forall (fun ch => isalpha ch = true) s).
  { intro row. unfold header_row. rewrite forallb_forall. split.
    - intros H s Hs. apply in_str_cells in Hs. specialize (H s Hs).
      unfold str_isalpha in H. apply andb_true_iff in H. destruct H as [_ H].
      apply andb_true_iff in H. destruct H as [Hn Ha]. split.
      + intros ->. discriminate.
      + apply Forall_forall. rewrite forallb_forall in Ha. exact Ha.
    - intros H s Hs. apply in_str_cells in Hs. destruct (H s Hs) as [Hn Ha].
      unfold str_isalpha. destruct s as [| ch s]; [contradiction |].
      cbn [is_nil negb andb]. apply forallb_forall. apply Forall_forall. exact Ha. }
  split; [exact Row |].
  split.
  - intros row Hin. destruct (header_row isalpha row) eqn:E; [| reflexivity].
    destruct (Row row) as [R _]. destruct (R E [] Hin) as [C _]. contradiction.
  - intros s l R.
    destruct (returned_score isspace isalpha repr_list np_std_nonempty t s l R)
      as (ratio & dense & Er & Ed & Es & _).
    exists ratio, dense. split; [exact Er |]. split; [exact Ed | exact Es].
Qed.

(** C2, where the code fails it: a table with a non-empty list cell makes
    line 16 call [strip] on the list, and the classifier raises
    AttributeError instead of returning a score. *)
Theorem C2_nonempty_list_cell_raises (t : table) :
  existsb nonempty_list (cells t) = true ->
  calculate_table_complexity isspace isalpha repr_list np_std_nonempty t
  = Err AttributeError.
Proof.
  intro H. unfold calculate_table_complexity.
  rewrite (score_raises isspace isalpha repr_list np_std_nonempty t H). reflexivity.
Qed.

(** When the classifier returns, the nesting signal contributes 0.4 iff
    some cell is a list (then an empty one) or splits into more than 15
    tokens. *)
Lemma nested_term_spec (t : table) :
  (nested_term isspace repr_list t = float_lit 4 10 <->
   exists c, In c (cells t)
             /\ (isinstance_list c = true \/ 15 < len (split isspace (py_str repr_list c))))
  /\ (nested_term isspace repr_list t = Fin 0%Q <-> nested_table isspace repr_list t = false).
Proof.
  pose proof (weight_on (float_lit 4 10) (nested_table isspace repr_list t) float_lit_4_10_nz)
    as [Won Woff]. fold (nested_term isspace repr_list t) in Won, Woff.
  split; [| exact Woff]. rewrite Won. unfold nested_table. rewrite existsb_exists.
  split; intros (c & Hc & H); exists c; (split; [exact Hc |]).
  - apply orb_true_iff in H. destruct H as [H | H]; [left; exact H | right].
    apply Z.ltb_lt. exact H.
  - apply orb_true_iff. destruct H as [H | H]; [left; exact H | right].
    apply Z.ltb_lt. exact H.
Qed.

(** When exactly the empty-cell and the density signals fire, the score
    is the float sum of 0.4 and 0.2, which lies above the float 0.6: the
    label is Complex, not Moderate. *)
Theorem sparse_and_dense_is_complex (t : table) (ratio : pyfloat) :
  merged_cell_ratio isspace t = Ok ratio ->
  fgt ratio (float_lit 2 10) = true ->
  row_length_variation np_std_nonempty t = false ->
  nested_table isspace repr_list t = false ->
  header_count isalpha t <= 1 ->
  high_density isspace repr_list t = Ok true ->
  calculate_table_complexity isspace isalpha repr_list np_std_nonempty t
  = Ok (fadd (float_lit 4 10) (float_lit 2 10), Complex)
  /\ fgt (fadd (float_lit 4 10) (float_lit 2 10)) (float_lit 6 10) = true.
Proof.
  intros Hr Hs Hv Hn Hh Hd. split; [| vm_compute; reflexivity].
  unfold calculate_table_complexity, score. rewrite Hr, Hd. cbn [bind].
  unfold merged_term, variation_term, nested_term, header_term, density_term.
  rewrite Hs, Hv, Hn. apply Z.ltb_ge in Hh. rewrite Hh.
  vm_compute. reflexivity.
Qed.

(** A document with no complex table, no image, one column and no dense
    paragraph scores 0 and is Low. *)
Theorem empty_document_is_low :
  final_complexity_score (make_report 0 0 1 0) = 0
  /\ complexity_level_of (make_report 0 0 1 0) = Low.
Proof. split; reflexivity. Qed.

End ClassifierClaims.

(* ================================================================== *)
(** ** The claims on concrete tables *)

Lemma C3_witness :
  calculate_table_complexity unicode_isspace ascii_isalpha repr_ascii np_std_sequential []
  = Ok (Fin 0%Q, Simple)
  /\ total_cells [[]; []] = 0
  /\ merged_cell_ratio unicode_isspace [[]; []] = Ok (Fin 0%Q)
  /\ word_counts unicode_isspace repr_ascii [[CNone; CStr []]] = []
  /\ avg_word_count unicode_isspace repr_ascii [[CNone; CStr []]] = Fin 0%Q
  /\ high_density unicode_isspace repr_ascii [[CNone; CStr []]] = Ok false.
Proof.
  pose proof (C3_empty_table_is_simple unicode_isspace ascii_isalpha repr_ascii
                np_std_sequential [[]; []]) as (E & _ & R & _).
  pose proof (C3_empty_table_is_simple unicode_isspace ascii_isalpha repr_ascii
                np_std_sequential [[CNone; CStr []]]) as (_ & _ & _ & W & _).
  split; [exact E |]. split; [reflexivity |]. split; [apply R; reflexivity |].
  split; [reflexivity |]. apply W. reflexivity.
Defined.

Lemma C2_witness :
  existsb nonempty_list (cells with_list_cell) = true
  /\ classify with_list_cell = Err AttributeError.
Proof.
  split; [reflexivity |].
  apply (C2_nonempty_list_cell_raises unicode_isspace ascii_isalpha repr_ascii
           np_std_sequential with_list_cell).
  reflexivity.
Defined.

Lemma C4_counterexample :
  1 < spec_header_count ascii_isalpha two_headers_with_blanks
  /\ classify two_headers_with_blanks = Ok (float_lit 4 10, Moderate)
  /\ merged_cell_ratio unicode_isspace two_headers_with_blanks = Ok (float_lit 1 2)
  /\ high_density unicode_isspace repr_ascii two_headers_with_blanks = Ok false
  /\ float_lit 4 10
     <> fadd (fadd (fadd (fadd (merged_term (float_lit 1 2))
                               (variation_term np_std_sequential two_headers_with_blanks))
                         (nested_term unicode_isspace repr_ascii two_headers_with_blanks))
                   (weight (float_lit 3 10)
                         (1 <? spec_header_count ascii_isalpha two_headers_with_blanks)))
             (density_term false)
  /\ ~ (header_term ascii_isalpha two_headers_with_blanks = float_lit 3 10
        <-> 1 < spec_header_count ascii_isalpha two_headers_with_blanks).
Proof.
  split; [reflexivity |].
  split; [vm_compute; reflexivity |].
  split; [vm_compute; reflexivity |].
  split; [vm_compute; reflexivity |].
  split; [vm_compute; discriminate |].
  intros [_ H].
  assert (E : header_term ascii_isalpha two_headers_with_blanks = Fin 0%Q) by reflexivity.
  rewrite E in H. specialize (H eq_refl). revert H. vm_compute. discriminate.
Qed.

Lemma C4_witness :
  header_term ascii_isalpha two_headers_with_blanks = Fin 0%Q
  /\ header_row ascii_isalpha [text "Name"; text ""] = false
  /\ header_term ascii_isalpha two_headers_with_none = float_lit 3 10
  /\ classify two_headers_with_none
     = Ok (fadd (float_lit 4 10) (float_lit 3 10), Complex)
  /\ exists ratio dense,
       merged_cell_ratio unicode_isspace two_headers_with_none = Ok ratio
       /\ high_density unicode_isspace repr_ascii two_headers_with_none = Ok dense
       /\ fadd (float_lit 4 10) (float_lit 3 10)
          = fadd (fadd (fadd (fadd (merged_term ratio)
                                   (variation_term np_std_sequential two_headers_with_none))
                             (nested_term unicode_isspace repr_ascii two_headers_with_none))
                       (header_term ascii_isalpha two_headers_with_none))
                 (density_term dense).
Proof.
  pose proof (C4_header_signal unicode_isspace ascii_isalpha repr_ascii np_std_sequential
                two_headers_with_blanks) as (_ & Off & _ & _ & Blank & _).
  pose proof (C4_header_signal unicode_isspace ascii_isalpha repr_ascii np_std_sequential
                two_headers_with_none) as (On & _ & _ & _ & _ & Link).
  assert (R : classify two_headers_with_none
              = Ok (fadd (float_lit 4 10) (float_lit 3 10), Complex))
    by (vm_compute; reflexivity).
  split; [apply Off; vm_compute; discriminate |].
  split; [apply Blank; right; left; reflexivity |].
  split; [apply On; reflexivity |].
  split; [exact R |].
  exact (Link _ _ R).
Defined.

Lemma C5_witness :
  merged_cell_ratio unicode_isspace one_blank_in_five = Ok (float_lit 2 10)
  /\ merged_term (float_lit 2 10) = Fin 0%Q
  /\ merged_cell_ratio unicode_isspace two_blank_in_five = Ok (float_lit 4 10)
  /\ merged_term (float_lit 4 10) = float_lit 4 10
  /\ classify one_blank_in_five = Ok (Fin 0%Q, Simple)
  /\ classify two_blank_in_five = Ok (float_lit 4 10, Moderate)
  /\ exists dense,
       high_density unicode_isspace repr_ascii two_blank_in_five = Ok dense
       /\ float_lit 4 10
          = fadd (fadd (fadd (fadd (merged_term (float_lit 4 10))
                                   (variation_term np_std_sequential two_blank_in_five))
                             (nested_term unicode_isspace repr_ascii two_blank_in_five))
                       (header_term ascii_isalpha two_blank_in_five))
                 (density_term dense).
Proof.
  assert (R1 : merged_cell_ratio unicode_isspace one_blank_in_five = Ok (float_lit 2 10))
    by (vm_compute; reflexivity).
  assert (R2 : merged_cell_ratio unicode_isspace two_blank_in_five = Ok (float_lit 4 10))
    by (vm_compute; reflexivity).
  assert (S2 : classify two_blank_in_five = Ok (float_lit 4 10, Moderate))
    by (vm_compute; reflexivity).
  pose proof (C5_empty_cell_signal unicode_isspace ascii_isalpha repr_ascii np_std_sequential
                one_blank_in_five (float_lit 2 10) R1)
    as (_ & _ & _ & _ & _ & Fifth & _).
  pose proof (C5_empty_cell_signal unicode_isspace ascii_isalpha repr_ascii np_std_sequential
                two_blank_in_five (float_lit 4 10) R2)
    as (_ & _ & _ & _ & _ & _ & Exact & Link).
  split; [exact R1 |]. split; [apply Fifth; vm_compute; discriminate |].
  split; [exact R2 |]. split; [apply Exact; vm_compute; [discriminate | reflexivity] |].
  split; [vm_compute; reflexivity |].
  split; [exact S2 |].
  exact (Link _ _ S2).
Defined.

Lemma C6_witness :
  existsb nonempty_list (cells one_long_cell) = false
  /\ exists s l,
       classify one_long_cell = Ok (Fin s, l)
       /\ fle (Fin 0%Q) (Fin s) = true
       /\ fle (Fin s) (float_lit 16 10) = true
       /\ (l = Simple <-> fle (Fin s) (float_lit 3 10) = true)
       /\ (l = Moderate <->
           fgt (Fin s) (float_lit 3 10) = true /\ fle (Fin s) (float_lit 6 10) = true)
       /\ (l = Complex <-> fgt (Fin s) (float_lit 6 10) = true).
Proof.
  split; [reflexivity |].
  apply (C6_score_range_and_label unicode_isspace ascii_isalpha repr_ascii
           np_std_sequential one_long_cell).
  reflexivity.
Defined.

Lemma C8_witness :
  high_density unicode_isspace repr_ascii two_words_each = Ok false
  /\ word_counts unicode_isspace repr_ascii two_words_each = [2; 2; 2]
  /\ density_term false = Fin 0%Q
  /\ high_density unicode_isspace repr_ascii one_long_cell = Ok true
  /\ word_counts unicode_isspace repr_ascii one_long_cell = [1; 1; 1; 9; 2]
  /\ density_term true = float_lit 2 10
  /\ classify two_words_each = Ok (float_lit 4 10, Moderate)
  /\ classify one_long_cell = Ok (fadd (float_lit 4 10) (float_lit 2 10), Complex)
  /\ exists ratio,
       merged_cell_ratio unicode_isspace one_long_cell = Ok ratio
       /\ fadd (float_lit 4 10) (float_lit 2 10)
          = fadd (fadd (fadd (fadd (merged_term ratio)
                                   (variation_term np_std_sequential one_long_cell))
                             (nested_term unicode_isspace repr_ascii one_long_cell))
                       (header_term ascii_isalpha one_long_cell))
                 (density_term true).
Proof.
  assert (H1 : high_density unicode_isspace repr_ascii two_words_each = Ok false)
    by (vm_compute; reflexivity).
  assert (H2 : high_density unicode_isspace repr_ascii one_long_cell = Ok true)
    by (vm_compute; reflexivity).
  assert (S2 : classify one_long_cell
               = Ok (fadd (float_lit 4 10) (float_lit 2 10), Complex))
    by (vm_compute; reflexivity).
  pose proof (C8_high_density_signal unicode_isspace ascii_isalpha repr_ascii
                np_std_sequential two_words_each false H1)
    as (_ & _ & Off & _).
  pose proof (C8_high_density_signal unicode_isspace ascii_isalpha repr_ascii
                np_std_sequential one_long_cell true H2)
    as (_ & On & _ & _ & _ & _ & Link).
  split; [exact H1 |]. split; [vm_compute; reflexivity |]. split; [apply Off; reflexivity |].
  split; [exact H2 |]. split; [vm_compute; reflexivity |]. split; [apply On; reflexivity |].
  split; [vm_compute; reflexivity |].
  split; [exact S2 |].
  exact (Link _ _ S2).
Defined.

Lemma sparse_and_dense_witness :
  classify one_long_cell = Ok (fadd (float_lit 4 10) (float_lit 2 10), Complex)
  /\ fgt (fadd (float_lit 4 10) (float_lit 2 10)) (float_lit 6 10) = true.
Proof.
  apply (sparse_and_dense_is_complex unicode_isspace ascii_isalpha repr_ascii
           np_std_sequential one_long_cell
           (Fin (B64.round (inject_Z 2 / inject_Z 7))));
    vm_compute; try reflexivity; discriminate.
Defined.

(* ================================================================== *)
(** ** The document scorer on the three formats *)

Section DocumentClaims.

Variable isspace : N -> bool.
Variable isalpha : N -> bool.
Variable repr_list : list cell -> pystr.
Variable np_std_nonempty : list Z -> pyfloat.
Variable lib : parsers.

Lemma text_grid_no_list (rows : list (list pystr)) :
  existsb nonempty_list (cells (text_grid rows)) = false.
Proof.
  unfold cells, text_grid. induction rows as [| row rows IH]; [reflexivity |].
  cbn [map List.concat]. rewrite existsb_app, IH, orb_false_r.
  induction row as [| s row IHr]; [reflexivity | exact IHr].
Qed.

Lemma classify_text_grid (rows : list (list pystr)) :
  exists r,
    calculate_table_complexity isspace isalpha repr_list np_std_nonempty (text_grid rows)
    = Ok r.
Proof.
  destruct (score_ok isspace isalpha repr_list np_std_nonempty
              (text_grid rows) (text_grid_no_list rows)) as (s & E & _).
  exists (Fin s, complexity_label (Fin s)).
  unfold calculate_table_complexity. rewrite E. reflexivity.
Qed.

Lemma count_if_total {A : Type} (p : A -> result bool) (xs : list A) :
  (forall x, exists b, p x = Ok b) -> exists n, count_if p xs = Ok n.
Proof.
  intro H. induction xs as [| x xs [n IH]]; [exists 0; reflexivity |].
  destruct (H x) as [b Hb]. cbn [count_if]. rewrite Hb, IH. cbn [bind].
  eexists. reflexivity.
Qed.

(** C7: on a slide deck the report gives 0 dense paragraphs whatever the
    number of text frames above 500 characters; the columns are 1 when that
    number is below 5 and 2 otherwise; and the final score has no term for
    dense paragraphs. *)
Theorem C7_slide_deck_reports_no_dense_paragraphs
  (file_path : pystr) (ppt : presentation) (log : list event) :
  pptx_Presentation lib file_path = Ok ppt ->
  exists rep log',
    calculate_document_complexity isspace isalpha repr_list np_std_nonempty lib
      file_path (codepoints "pptx") log = (Ok rep, log')
    /\ dense_paragraphs_reported rep = 0
    /\ columns_detected rep
       = (if len (filter dense_text_frame (shapes ppt)) <? 5 then 1 else 2)
    /\ final_complexity_score rep
       = complex_tables_found rep * 20
         + (if 1 <? columns_detected rep then columns_detected rep * 20 else 0)
         + images_found rep * 10.
Proof.
  intro H. unfold calculate_document_complexity.
  assert (E1 : pystr_eqb (codepoints "pptx") (codepoints "pdf") = false) by reflexivity.
  assert (E2 : pystr_eqb (codepoints "pptx") (codepoints "docx") = false) by reflexivity.
  assert (E3 : pystr_eqb (codepoints "pptx") (codepoints "pptx") = true) by reflexivity.
  rewrite E1, E2, E3.
  unfold count_tables_pptx, count_images_pptx, analyze_layout_complexity_pptx.
  unfold bindM, parse, lift, ret. rewrite H.
  destruct (count_if_total
              (fun sh =>
                 match shape_table sh with
                 | None => Ok false
                 | Some rows =>
                     (r <- calculate_table_complexity isspace isalpha repr_list
                             np_std_nonempty (text_grid rows) ;;
                      Ok (table_label_eqb (snd r) Complex))%res
                 end) (shapes ppt)) as [n En].
  { intro sh. destruct (shape_table sh) as [rows |]; [| exists false; reflexivity].
    destruct (classify_text_grid rows) as [r Er]. rewrite Er. cbn [bind].
    eexists. reflexivity. }
  rewrite En. cbn [fst snd].
  eexists. eexists. split; [reflexivity |].
  cbn [make_report dense_paragraphs_reported columns_detected final_complexity_score
       complex_tables_found images_found].
  split; [reflexivity |]. split; [reflexivity |].
  unfold final_score, table_score, layout_score, image_score, raw_dense_paragraphs_pptx.
  cbn [Z.ltb Z.compare orb]. rewrite orb_false_r.
  destruct (1 <? (if len (filter dense_text_frame (shapes ppt)) <? 5 then 1 else 2)); lia.
Qed.

(** C9, as the code has it: for a file type other than pdf, docx and pptx
    no parser is called (the log is unchanged) and the call fails with
    UnboundLocalError, raised where the scoring arithmetic reads
    [num_complex_tables]. *)
Theorem C9_unsupported_type_unbound_local
  (file_path file_type : pystr) (log : list event) :
  file_type <> codepoints "pdf" ->
  file_type <> codepoints "docx" ->
  file_type <> codepoints "pptx" ->
  calculate_document_complexity isspace isalpha repr_list np_std_nonempty lib
    file_path file_type log = (Err UnboundLocalError, log).
Proof.
  intros H1 H2 H3. unfold calculate_document_complexity, pystr_eqb.
  destruct (list_eq_dec N.eq_dec file_type (codepoints "pdf")); [contradiction |].
  destruct (list_eq_dec N.eq_dec file_type (codepoints "docx")); [contradiction |].
  destruct (list_eq_dec N.eq_dec file_type (codepoints "pptx")); [contradiction |].
  reflexivity.
Qed.

(** A document the first parser cannot read: its exception reaches the
    caller after that one parser call, and no report is produced. *)
Theorem parser_failure_propagates (file_path : pystr) (e : exn) (log : list event) :
  (pdfplumber_open lib file_path = Err e ->
   calculate_document_complexity isspace isalpha repr_list np_std_nonempty lib
     file_path (codepoints "pdf") log = (Err e, log ++ [(Pdfplumber, file_path)]))
  /\ (docx_Document lib file_path = Err e ->
      calculate_document_complexity isspace isalpha repr_list np_std_nonempty lib
        file_path (codepoints "docx") log = (Err e, log ++ [(PythonDocx, file_path)]))
  /\ (pptx_Presentation lib file_path = Err e ->
      calculate_document_complexity isspace isalpha repr_list np_std_nonempty lib
        file_path (codepoints "pptx") log = (Err e, log ++ [(PythonPptx, file_path)])).
Proof.
  unfold calculate_document_complexity.
  repeat split; intro H.
  - change (pystr_eqb (codepoints "pdf") (codepoints "pdf")) with true. cbv iota.
    unfold count_complex_tables_pdf, bindM, parse. rewrite H. reflexivity.
  - change (pystr_eqb (codepoints "docx") (codepoints "pdf")) with false.
    change (pystr_eqb (codepoints "docx") (codepoints "docx")) with true. cbv iota.
    unfold count_tables_docx, bindM, parse. rewrite H. reflexivity.
  - change (pystr_eqb (codepoints "pptx") (codepoints "pdf")) with false.
    change (pystr_eqb (codepoints "pptx") (codepoints "docx")) with false.
    change (pystr_eqb (codepoints "pptx") (codepoints "pptx")) with true. cbv iota.
    unfold count_tables_pptx, bindM, parse. rewrite H. reflexivity.
Qed.

End DocumentClaims.

(* ================================================================== *)
(** ** The claims on concrete documents *)

Lemma C7_witness :
  pptx_Presentation demo_parsers (codepoints "deck.pptx") = Ok demo_deck
  /\ len (filter dense_text_frame (shapes demo_deck)) = 6
  /\ exists rep log',
       analyse "deck.pptx" "pptx" = (Ok rep, log')
       /\ dense_paragraphs_reported rep = 0
       /\ columns_detected rep
          = (if len (filter dense_text_frame (shapes demo_deck)) <? 5 then 1 else 2)
       /\ final_complexity_score rep
          = complex_tables_found rep * 20
            + (if 1 <? columns_detected rep then columns_detected rep * 20 else 0)
            + images_found rep * 10.
Proof.
  split; [reflexivity |]. split; [vm_compute; reflexivity |].
  apply (C7_slide_deck_reports_no_dense_paragraphs unicode_isspace ascii_isalpha
           repr_ascii np_std_sequential demo_parsers (codepoints "deck.pptx") demo_deck []).
  reflexivity.
Defined.

Lemma C9_counterexample :
  fst (analyse "notes.txt" "txt") <> Err (OtherError "InputError").
Proof. vm_compute. discriminate. Qed.

Lemma C9_witness :
  analyse "notes.txt" "txt" = (Err UnboundLocalError, []).
Proof.
  apply (C9_unsupported_type_unbound_local unicode_isspace ascii_isalpha repr_ascii
           np_std_sequential demo_parsers (codepoints "notes.txt") (codepoints "txt") []);
    vm_compute; discriminate.
Defined.

Lemma parser_failure_witness :
  analyse "scan.pdf" "pdf"
  = (Err (OtherError "PDFSyntaxError"), [(Pdfplumber, codepoints "scan.pdf")])
  /\ analyse "memo.docx" "docx"
     = (Err (OtherError "PackageNotFoundError"), [(PythonDocx, codepoints "memo.docx")]).
Proof.
  pose proof (parser_failure_propagates unicode_isspace ascii_isalpha repr_ascii
                np_std_sequential demo_parsers (codepoints "scan.pdf")
                (OtherError "PDFSyntaxError") []) as (Pdf & _ & _).
  pose proof (parser_failure_propagates unicode_isspace ascii_isalpha repr_ascii
                np_std_sequential demo_parsers (codepoints "memo.docx")
                (OtherError "PackageNotFoundError") []) as (_ & Docx & _).
  split; [apply Pdf; reflexivity | apply Docx; reflexivity].
Defined.

(* ================================================================== *)
(** ** Further properties of the table classifier *)

Section ClassifierProperties.

Variable isspace : N -> bool.
Variable isalpha : N -> bool.
Variable repr_list : list cell -> pystr.
Variable np_std_nonempty : list Z -> pyfloat.

(** [n] tokens need [n - 1] separators between them. *)
Lemma split_from_bound (cur s : pystr) :
  2 * len (split_from isspace cur s) <= len s + (if is_nil cur then 1 else 2).
Proof.
  revert cur. induction s as [| c s IH]; intro cur.
  - destruct cur; cbn; lia.
  - cbn [split_from]. rewrite (len_cons c s). destruct (isspace c).
    + specialize (IH []). cbn [is_nil] in IH.
      destruct cur as [| x cur]; cbn [is_nil]; [lia |]. rewrite len_cons. lia.
    + specialize (IH (c :: cur)). cbn [is_nil] in IH. destruct (is_nil cur); lia.
Qed.

Lemma split_bound (s : pystr) : 2 * len (split isspace s) <= len s + 1.
Proof. apply (split_from_bound [] s). Qed.

(** The verbosity half of line 20 needs a long cell: the nesting signal
    fires only on a table with a list cell or with a string cell of at
    least 31 characters (sixteen tokens and fifteen separators). *)
Theorem verbosity_needs_31_characters (t : table) :
  nested_table isspace repr_list t = true ->
  exists c, In c (cells t)
            /\ (isinstance_list c = true \/ exists s, c = CStr s /\ 31 <= len s).
Proof.
  unfold nested_table. rewrite existsb_exists. intros (c & Hc & H).
  exists c. split; [exact Hc |]. apply orb_true_iff in H.
  destruct H as [H | H]; [left; exact H |].
  apply Z.ltb_lt in H. unfold word_count in H.
  pose proof (split_bound (py_str repr_list c)) as B.
  destruct c as [| s | items].
  - cbn [py_str] in *. change (len (codepoints "None")) with 4 in B. lia.
  - right. exists s. split; [reflexivity |]. cbn [py_str] in *. lia.
  - left. reflexivity.
Qed.

(** Line 33 after line 26, for each outcome of the five signals. *)
Lemma weights_label (b1 b2 b3 b4 b5 : bool) :
  complexity_label
    (fadd (fadd (fadd (fadd (weight (float_lit 4 10) b1) (weight (float_lit 3 10) b2))
                      (weight (float_lit 4 10) b3))
                (weight (float_lit 3 10) b4))
          (weight (float_lit 2 10) b5))
  = label_of_signals b1 b2 b3 b4 b5.
Proof. destruct b1, b2, b3, b4, b5; vm_compute; reflexivity. Qed.

(** The label depends on the table only through the five signals, by the
    table [label_of_signals]: the float sums of the weights never put a
    table on the other side of a threshold than that table says (it has
    0.3 + 0.3 as Moderate and 0.4 + 0.2 as Complex). *)
Theorem label_decided_by_signals (t : table) (s : pyfloat) (l : table_label) :
  calculate_table_complexity isspace isalpha repr_list np_std_nonempty t = Ok (s, l) ->
  exists ratio dense,
    merged_cell_ratio isspace t = Ok ratio
    /\ high_density isspace repr_list t = Ok dense
    /\ l = label_of_signals (fgt ratio (float_lit 2 10))
             (row_length_variation np_std_nonempty t)
             (nested_table isspace repr_list t)
             (1 <? header_count isalpha t)
             dense.
Proof.
  unfold calculate_table_complexity, score. intro H.
  destruct (merged_cell_ratio isspace t) as [ratio | e]; [| discriminate].
  destruct (high_density isspace repr_list t) as [dense | e]; [| discriminate].
  cbn [bind] in H. exists ratio, dense. split; [reflexivity |]. split; [reflexivity |].
  injection H as _ Hl. rewrite <- Hl.
  unfold merged_term, variation_term, nested_term, header_term, density_term.
  apply weights_label.
Qed.

(** The ratio of line 17 is a float between 0 and 1, on ragged tables
    too: blank cells are counted over the cells that exist, the denominator
    over rows times the widest row. *)
Theorem merged_cell_ratio_in_unit_interval (t : table) (ratio : pyfloat) :
  merged_cell_ratio isspace t = Ok ratio ->
  exists q, ratio = Fin q /\ (0 <= q)%Q /\ (q <= 1)%Q.
Proof.
  unfold merged_cell_ratio. rewrite empty_cells_spec.
  destruct (existsb nonempty_list (cells t)); [discriminate |]. cbn [bind].
  set (e := len (filter (blank_cell isspace) (cells t))).
  assert (He : 0 <= e) by apply len_nonneg.
  assert (Et : e <= total_cells t).
  { pose proof (len_filter_le (blank_cell isspace) (cells t)).
    pose proof (cells_le_total t). unfold e. lia. }
  destruct (Z.eqb_spec (total_cells t) 0) as [Z0 | NZ]; intro H.
  - injection H as <-. exists 0%Q. repeat split; discriminate.
  - unfold int_truediv in H. apply Z.eqb_neq in NZ. rewrite NZ in H. apply Z.eqb_neq in NZ.
    injection H as <-. eexists. split; [reflexivity |].
    assert (Pt : (0 < inject_Z (total_cells t))%Q) by (apply B64Facts.inject_Z_pos; lia).
    assert (Lo : (0 <= inject_Z e / inject_Z (total_cells t))%Q).
    { apply Qle_shift_div_l; [exact Pt |]. rewrite Qmult_0_l.
      change 0%Q with (inject_Z 0). rewrite <- Zle_Qle. exact He. }
    split; [apply B64Facts.round_nonneg, Lo |].
    change 1%Q with (B64.round 1). apply B64Facts.round_le; [exact Lo |].
    apply Qle_shift_div_r; [exact Pt |]. rewrite Qmult_1_l. rewrite <- Zle_Qle. exact Et.
Qed.

Lemma cells_all_none (t : table) :
  Forall (fun row => Forall (eq CNone) row) t -> Forall (eq CNone) (cells t).
Proof.
  unfold cells. induction 1 as [| row t Hr _ IH]; [constructor |].
  cbn [List.concat]. apply Forall_app. split; assumption.
Qed.

Lemma len_cells_rectangular (t : table) (w : Z) :
  Forall (fun row => len row = w) t -> len (cells t) = len t * w.
Proof.
  unfold cells. induction 1 as [| row t Hr _ IH]; [reflexivity |].
  cbn [List.concat]. rewrite len_app, len_cons, IH, Hr. lia.
Qed.

Lemma fold_left_max_const (l : list Z) (w : Z) :
  Forall (eq w) l -> fold_left Z.max l w = w.
Proof.
  induction 1 as [| x l E _ IH]; [reflexivity |].
  subst x. cbn [fold_left]. rewrite Z.max_id. exact IH.
Qed.

Lemma num_cols_rectangular (t : table) (w : Z) :
  t <> [] -> Forall (fun row => len row = w) t -> num_cols t = w.
Proof.
  intros NE H. destruct t as [| row t]; [contradiction |].
  unfold num_cols. cbn [is_nil map py_max]. inversion H as [| r t' Hr Ht]; subst.
  apply fold_left_max_const. apply Forall_map.
  eapply Forall_impl; [| exact Ht]. intros r Er. symmetry. exact Er.
Qed.

Lemma filter_all {A : Type} (p : A -> bool) (l : list A) :
  Forall (fun x => p x = true) l -> filter p l = l.
Proof.
  induction 1 as [| x l Hx _ IH]; [reflexivity |]. cbn [filter]. rewrite Hx, IH. reflexivity.
Qed.

Lemma filter_none {A : Type} (p : A -> bool) (l : list A) :
  Forall (fun x => p x = false) l -> filter p l = [].
Proof.
  induction 1 as [| x l Hx _ IH]; [reflexivity |]. cbn [filter]. rewrite Hx. exact IH.
Qed.

Lemma existsb_none {A : Type} (p : A -> bool) (l : list A) :
  Forall (fun x => p x = false) l -> existsb p l = false.
Proof.
  induction 1 as [| x l Hx _ IH]; [reflexivity |]. cbn [existsb]. rewrite Hx. exact IH.
Qed.

Lemma in_firstn {A : Type} (n : nat) (l : list A) (x : A) :
  In x (firstn n l) -> In x l.
Proof.
  intro H. rewrite <- (firstn_skipn n l). apply in_or_app. left. exact H.
Qed.

Lemma header_row_without_strings (row : list cell) :
  Forall (eq CNone) row -> header_row isalpha row = true.
Proof.
  intro H. unfold header_row, str_cells.
  induction H as [| c row E _ IH]; [reflexivity |]. subst c. exact IH.
Qed.

(** A grid of [None] cells, at least two rows of one width: every cell is
    blank, so the ratio is 1, and the first rows hold no string at all, so
    each passes the header test of line 21 vacuously.  The two signals add
    up to at least 0.7 and the table is labelled Complex. *)
Theorem blank_grid_is_complex (t : table) (w : Z) :
  2 <= len t -> 1 <= w ->
  Forall (fun row => len row = w) t ->
  Forall (fun row => Forall (eq CNone) row) t ->
  merged_cell_ratio isspace t = Ok (Fin 1%Q)
  /\ header_count isalpha t = Z.min 3 (len t)
  /\ exists s,
       calculate_table_complexity isspace isalpha repr_list np_std_nonempty t
       = Ok (s, Complex).
Proof.
  intros Hn Hw Hrect Hnone.
  pose proof (cells_all_none t Hnone) as Hc.
  assert (NE : t <> []) by (intros ->; cbn in Hn; lia).
  assert (T : total_cells t = len t * w).
  { unfold total_cells, num_rows. rewrite (num_cols_rectangular t w NE Hrect). reflexivity. }
  assert (R : merged_cell_ratio isspace t = Ok (Fin 1%Q)).
  { unfold merged_cell_ratio. rewrite empty_cells_spec.
    rewrite existsb_none
      by (eapply Forall_impl; [| exact Hc]; intros c <-; reflexivity).
    rewrite filter_all
      by (eapply Forall_impl; [| exact Hc]; intros c <-; reflexivity).
    cbn [bind]. rewrite (len_cells_rectangular t w Hrect), T.
    unfold int_truediv.
    destruct (Z.eqb_spec (len t * w) 0) as [Z0 | NZ]; [nia |].
    f_equal. f_equal. change 1%Q with (B64.round 1). apply B64Facts.round_proper.
    apply Qmult_inv_r. apply B64Facts.inject_Z_nz. exact NZ. }
  assert (H : header_count isalpha t = Z.min 3 (len t)).
  { unfold header_count. rewrite filter_all.
    - unfold len. rewrite length_firstn. lia.
    - apply Forall_forall. intros row Hin. apply header_row_without_strings.
      rewrite Forall_forall in Hnone. apply Hnone. eapply in_firstn. exact Hin. }
  split; [exact R |]. split; [exact H |].
  assert (W : word_counts isspace repr_list t = []).
  { unfold word_counts. rewrite filter_none; [reflexivity |].
    eapply Forall_impl; [| exact Hc]. intros c <-. reflexivity. }
  assert (Nest : nested_table isspace repr_list t = false).
  { unfold nested_table. apply existsb_none.
    eapply Forall_impl; [| exact Hc]. intros c <-. cbn [isinstance_list orb].
    apply Z.ltb_ge. unfold word_count. cbn [py_str].
    pose proof (split_bound (codepoints "None")) as B.
    change (len (codepoints "None")) with 4 in B. lia. }
  unfold calculate_table_complexity, score, high_density. rewrite R, W. cbn [is_nil bind].
  eexists. f_equal. f_equal.
  unfold merged_term, variation_term, nested_term, header_term, density_term.
  rewrite weights_label, Nest, H.
  assert (Hd : (1 <? Z.min 3 (len t)) = true) by (apply Z.ltb_lt; lia).
  rewrite Hd. change (fgt (Fin 1%Q) (float_lit 2 10)) with true.
  destruct (row_length_variation np_std_nonempty t); reflexivity.
Qed.

(** The classifier on any table: AttributeError exactly when a cell is a
    non-empty list, a score and a label otherwise. *)
Lemma classifier_cases (t : table) :
  if existsb nonempty_list (cells t)
  then calculate_table_complexity isspace isalpha repr_list np_std_nonempty t
       = Err AttributeError
  else exists r,
         calculate_table_complexity isspace isalpha repr_list np_std_nonempty t = Ok r.
Proof.
  unfold calculate_table_complexity. destruct (existsb nonempty_list (cells t)) eqn:E.
  - rewrite (score_raises isspace isalpha repr_list np_std_nonempty t E). reflexivity.
  - destruct (score_ok isspace isalpha repr_list np_std_nonempty t E) as (s & Es & _).
    rewrite Es. eexists. reflexivity.
Qed.

Lemma count_complex_cases (tables : list table) :
  count_complex isspace isalpha repr_list np_std_nonempty tables
  = (if existsb (fun t => existsb nonempty_list (cells t)) tables
     then Err AttributeError
     else Ok (len (filter (labelled_complex isspace isalpha repr_list np_std_nonempty)
                     tables))).
Proof.
  unfold count_complex. induction tables as [| t tables IH]; [reflexivity |].
  cbn [count_if existsb filter]. rewrite IH. unfold labelled_complex.
  pose proof (classifier_cases t) as C.
  destruct (existsb nonempty_list (cells t)).
  - rewrite C. reflexivity.
  - destruct C as [[s l] E]. rewrite E. cbn [bind snd orb].
    destruct (existsb (fun t0 => existsb nonempty_list (cells t0)) tables); [reflexivity |].
    cbn [bind]. destruct l; cbn [table_label_eqb]; [| | rewrite len_cons]; f_equal; lia.
Qed.

(** The count of lines 42, 62 and 79: it raises AttributeError exactly
    when some table holds a non-empty list cell, and is otherwise the
    number of tables labelled Complex, at most the number of tables. *)
Theorem count_complex_spec (tables : list table) :
  count_complex isspace isalpha repr_list np_std_nonempty tables
  = (if existsb (fun t => existsb nonempty_list (cells t)) tables
     then Err AttributeError
     else Ok (len (filter (labelled_complex isspace isalpha repr_list np_std_nonempty)
                     tables)))
  /\ 0 <= len (filter (labelled_complex isspace isalpha repr_list np_std_nonempty) tables)
     <= len tables.
Proof.
  split; [apply count_complex_cases |]. split; [apply len_nonneg | apply len_filter_le].
Qed.

End ClassifierProperties.

(* ================================================================== *)
(** ** Further properties of the scoring arithmetic *)

(** Line 106 has a step: with at least one column, the layout score is 0
    exactly for one column and no dense paragraph, and at least 25
    otherwise, since the column term counts as soon as the condition
    holds.  Hence the final score of non-negative measurements is 0 exactly
    when there is no complex table, no image, at most one column and no
    dense paragraph. *)
Theorem layout_score_step
  (num_complex_tables num_images num_columns dense_paragraphs : Z) :
  0 <= num_complex_tables -> 0 <= num_images ->
  0 <= num_columns -> 0 <= dense_paragraphs ->
  (layout_score num_columns dense_paragraphs = 0 <->
   num_columns <= 1 /\ dense_paragraphs = 0)
  /\ (1 <= num_columns ->
      layout_score num_columns dense_paragraphs = 0
      \/ 25 <= layout_score num_columns dense_paragraphs)
  /\ (final_complexity_score
        (make_report num_complex_tables num_images num_columns dense_paragraphs) = 0 <->
      num_complex_tables = 0 /\ num_images = 0
      /\ num_columns <= 1 /\ dense_paragraphs = 0).
Proof.
  intros Ht Hi Hc Hd. cbn [make_report final_complexity_score].
  unfold final_score, table_score, layout_score, image_score.
  destruct (Z.ltb_spec 1 num_columns); destruct (Z.ltb_spec 0 dense_paragraphs);
    cbn [orb]; repeat split; intros; lia.
Qed.

Lemma layout_score_step_witness :
  layout_score 1 0 = 0 /\ layout_score 1 1 = 25 /\ layout_score 2 0 = 40
  /\ (final_complexity_score (make_report 0 0 1 0) = 0 <->
      0 = 0 /\ 0 = 0 /\ 1 <= 1 /\ 0 = 0).
Proof.
  pose proof (layout_score_step 0 0 1 0) as (_ & _ & F); try lia.
  repeat split; try reflexivity; apply F; lia.
Defined.

(** The final score and the level never go down when a measurement goes
    up: more complex tables, images, columns or dense paragraphs never give
    a lower level. *)
Theorem final_score_monotone (t i c d t' i' c' d' : Z) :
  0 <= t <= t' -> 0 <= i <= i' -> 0 <= c <= c' -> 0 <= d <= d' ->
  final_complexity_score (make_report t i c d)
  <= final_complexity_score (make_report t' i' c' d')
  /\ level_rank (complexity_level_of (make_report t i c d))
     <= level_rank (complexity_level_of (make_report t' i' c' d')).
Proof.
  intros Ht Hi Hc Hd. cbn [make_report final_complexity_score complexity_level_of].
  assert (S : final_score t i c d <= final_score t' i' c' d').
  { unfold final_score, table_score, layout_score, image_score.
    destruct (Z.ltb_spec 1 c); destruct (Z.ltb_spec 0 d);
    destruct (Z.ltb_spec 1 c'); destruct (Z.ltb_spec 0 d'); cbn [orb]; lia. }
  split; [exact S |]. unfold level_of_score.
  destruct (Z.ltb_spec 100 (final_score t i c d));
  destruct (Z.ltb_spec 50 (final_score t i c d));
  destruct (Z.ltb_spec 100 (final_score t' i' c' d'));
  destruct (Z.ltb_spec 50 (final_score t' i' c' d')); cbn [level_rank]; lia.
Qed.

Lemma final_score_monotone_witness :
  final_complexity_score (make_report 2 3 1 0)
  <= final_complexity_score (make_report 2 3 2 0)
  /\ level_rank (complexity_level_of (make_report 2 3 1 0))
     <= level_rank (complexity_level_of (make_report 2 3 2 0)).
Proof. apply (final_score_monotone 2 3 1 0 2 3 2 0); lia. Defined.

(* ================================================================== *)
(** ** Further properties of the format extractors *)

Lemma count_if_app {A : Type} (p : A -> result bool) (xs ys : list A) :
  count_if p (xs ++ ys)
  = (a <- count_if p xs ;; b <- count_if p ys ;; Ok (a + b))%res.
Proof.
  induction xs as [| x xs IH].
  - cbn [app count_if bind]. destruct (count_if p ys); reflexivity.
  - cbn [app count_if]. rewrite IH.
    destruct (p x) as [b |]; [| reflexivity]. cbn [bind].
    destruct (count_if p xs) as [n |]; [| reflexivity]. cbn [bind].
    destruct (count_if p ys) as [m |]; [| reflexivity]. cbn [bind]. f_equal. lia.
Qed.

Lemma py_sum_map_len {A : Type} (ls : list (list A)) :
  py_sum (map len ls) = len (List.concat ls).
Proof.
  induction ls as [| l ls IH]; [reflexivity |].
  cbn [map List.concat]. unfold py_sum. cbn [fold_left].
  rewrite fold_left_add, IH, len_app. lia.
Qed.

Lemma len_filter_concat_ge {A : Type} (p : A -> bool) (ls : list (list A)) (l : list A) :
  In l ls -> len (filter p l) <= len (filter p (List.concat ls)).
Proof.
  induction ls as [| l' ls IH]; [contradiction |].
  cbn [List.concat]. rewrite filter_app, len_app.
  pose proof (len_nonneg (filter p l')) as N1.
  pose proof (len_nonneg (filter p (List.concat ls))) as N2.
  intros [-> | Hin]; [lia |]. specialize (IH Hin). lia.
Qed.

Lemma fold_left_max_attained (l : list Z) (x : Z) :
  fold_left Z.max l x = x \/ In (fold_left Z.max l x) l.
Proof.
  revert x. induction l as [| y l IH]; intro x; [left; reflexivity |].
  cbn [fold_left]. destruct (IH (Z.max x y)) as [E | H].
  - rewrite E. destruct (Z.max_spec x y) as [[_ ->] | [_ ->]];
      [right; left; reflexivity | left; reflexivity].
  - right. right. exact H.
Qed.

(** The loop of lines 52 to 56 in closed form. *)
Lemma pdf_layout_fold (pages : list (list lt_element)) (num_columns dense_paragraphs : Z) :
  fold_left
    (fun (state : Z * Z) page_layout =>
       let (num_columns, dense_paragraphs) := state in
       let paragraph_count := len (filter dense_text_box page_layout) in
       ((if 5 <? paragraph_count then 2 else num_columns),
        dense_paragraphs + paragraph_count))
    pages (num_columns, dense_paragraphs)
  = ((if existsb (fun page => 5 <? len (filter dense_text_box page)) pages
      then 2 else num_columns),
     dense_paragraphs + len (filter dense_text_box (List.concat pages))).
Proof.
  revert num_columns dense_paragraphs.
  induction pages as [| page pages IH]; intros c d.
  - cbn. f_equal. lia.
  - cbn [fold_left existsb List.concat]. rewrite IH, filter_app, len_app.
    destruct (5 <? len (filter dense_text_box page)); cbn [orb];
      destruct (existsb (fun page0 => 5 <? len (filter dense_text_box page0)) pages);
      f_equal; lia.
Qed.

(** The loop of lines 71 to 73 in closed form: the guard on an empty
    result changes nothing, since an empty list has length 0. *)
Lemma docx_columns_fold (sections : list (list unit)) (num_columns : Z) :
  0 <= num_columns ->
  fold_left (fun num_columns cols =>
               if negb (is_nil cols) then Z.max num_columns (len cols) else num_columns)
            sections num_columns
  = fold_left Z.max (map len sections) num_columns.
Proof.
  revert num_columns. induction sections as [| cols sections IH]; intros c Hc;
    [reflexivity |].
  cbn [fold_left map]. destruct cols as [| u cols]; cbn [is_nil negb].
  - replace (Z.max c (len (@nil unit))) with c by (cbn; lia). apply IH, Hc.
  - apply IH. lia.
Qed.

Section ExtractorProperties.

Variable isspace : N -> bool.
Variable isalpha : N -> bool.
Variable repr_list : list cell -> pystr.
Variable np_std_nonempty : list Z -> pyfloat.
Variable lib : parsers.

Lemma count_pages_fold (pages : list (list table)) (acc : result Z) :
  fold_left
    (fun acc tables =>
       (complex_table_count <- acc ;;
        n <- count_complex_tables isspace isalpha repr_list np_std_nonempty tables ;;
        Ok (complex_table_count + n))%res)
    pages acc
  = (complex_table_count <- acc ;;
     n <- count_complex_tables isspace isalpha repr_list np_std_nonempty
            (List.concat pages) ;;
     Ok (complex_table_count + n))%res.
Proof.
  revert acc. induction pages as [| tables pages IH]; intro acc.
  - cbn. destruct acc; cbn; [f_equal; lia | reflexivity].
  - cbn [fold_left List.concat]. rewrite IH.
    unfold count_complex_tables, count_complex. rewrite count_if_app.
    destruct acc as [c |]; [| reflexivity]. cbn [bind].
    match goal with |- context [count_if ?p tables] => destruct (count_if p tables) as [n |] end;
      [| reflexivity]. cbn [bind].
    match goal with |- context [count_if ?p (List.concat pages)] =>
      destruct (count_if p (List.concat pages)) as [m |] end; [| reflexivity].
    cbn [bind]. f_equal. lia.
Qed.

(** What each extractor of the PDF and word-processor branches returns,
    and the one parser call it logs. *)
Lemma count_complex_tables_pdf_run (pdf_path : pystr) (log : list event) :
  count_complex_tables_pdf isspace isalpha repr_list np_std_nonempty lib pdf_path log
  = ((pages <- pdfplumber_open lib pdf_path ;;
      count_complex isspace isalpha repr_list np_std_nonempty (List.concat pages))%res,
     log ++ [(Pdfplumber, pdf_path)]).
Proof.
  unfold count_complex_tables_pdf, bindM, parse, lift.
  destruct (pdfplumber_open lib pdf_path) as [pages |]; [| reflexivity].
  rewrite count_pages_fold. cbn [bind]. unfold count_complex_tables.
  destruct (count_complex isspace isalpha repr_list np_std_nonempty (List.concat pages));
    reflexivity.
Qed.

Lemma count_images_pdf_run (pdf_path : pystr) (log : list event) :
  count_images_pdf lib pdf_path log
  = ((doc <- fitz_open lib pdf_path ;; Ok (len (List.concat doc)))%res,
     log ++ [(PyMuPDF, pdf_path)]).
Proof.
  unfold count_images_pdf, bindM, parse, ret.
  destruct (fitz_open lib pdf_path) as [doc |]; [| reflexivity].
  rewrite py_sum_map_len. reflexivity.
Qed.

Lemma analyze_layout_complexity_pdf_run (pdf_path : pystr) (log : list event) :
  analyze_layout_complexity_pdf lib pdf_path log
  = ((pages <- extract_pages lib pdf_path ;;
      Ok ((if existsb (fun page => 5 <? len (filter dense_text_box page)) pages
           then 2 else 1),
          len (filter dense_text_box (List.concat pages))))%res,
     log ++ [(Pdfminer, pdf_path)]).
Proof.
  unfold analyze_layout_complexity_pdf, bindM, parse, ret.
  destruct (extract_pages lib pdf_path) as [pages |]; [| reflexivity].
  rewrite pdf_layout_fold. reflexivity.
Qed.

Lemma count_tables_docx_run (doc_path : pystr) (log : list event) :
  count_tables_docx isspace isalpha repr_list np_std_nonempty lib doc_path log
  = ((doc <- docx_Document lib doc_path ;;
      count_complex isspace isalpha repr_list np_std_nonempty
        (map text_grid (doc_tables doc)))%res,
     log ++ [(PythonDocx, doc_path)]).
Proof.
  unfold count_tables_docx, bindM, parse, lift.
  destruct (docx_Document lib doc_path); reflexivity.
Qed.

Lemma count_images_docx_run (doc_path : pystr) (log : list event) :
  count_images_docx lib doc_path log
  = ((doc <- docx_Document lib doc_path ;; Ok (len (doc_inline_shapes doc)))%res,
     log ++ [(PythonDocx, doc_path)]).
Proof.
  unfold count_images_docx, bindM, parse, ret.
  destruct (docx_Document lib doc_path); reflexivity.
Qed.

Lemma analyze_layout_complexity_docx_run (doc_path : pystr) (log : list event) :
  analyze_layout_complexity_docx lib doc_path log
  = ((doc <- docx_Document lib doc_path ;;
      Ok (fold_left Z.max (map len (doc_sections doc)) 1,
          len (filter is_dense (doc_paragraphs doc))))%res,
     log ++ [(PythonDocx, doc_path)]).
Proof.
  unfold analyze_layout_complexity_docx, bindM, parse, ret.
  destruct (docx_Document lib doc_path) as [doc |]; [| reflexivity].
  rewrite docx_columns_fold by lia. reflexivity.
Qed.

End ExtractorProperties.

(* ================================================================== *)
(** ** Further properties of the document scorer *)

Section DocumentProperties.

Variable isspace : N -> bool.
Variable isalpha : N -> bool.
Variable repr_list : list cell -> pystr.
Variable np_std_nonempty : list Z -> pyfloat.
Variable lib : parsers.

(** The PDF layout pass: the dense paragraphs are the text boxes above 500
    characters of all pages together; the columns are 2 exactly when one
    page alone has more than 5 of them, and 1 otherwise, so a document
    with fewer than 6 dense text boxes has one column. *)
Theorem pdf_layout_spec (pdf_path : pystr) (pages : list (list lt_element))
  (log : list event) :
  extract_pages lib pdf_path = Ok pages ->
  exists num_columns dense_paragraphs,
    analyze_layout_complexity_pdf lib pdf_path log
    = (Ok (num_columns, dense_paragraphs), log ++ [(Pdfminer, pdf_path)])
    /\ dense_paragraphs = len (filter dense_text_box (List.concat pages))
    /\ (num_columns = 1 \/ num_columns = 2)
    /\ (num_columns = 2 <->
        exists page, In page pages /\ 5 < len (filter dense_text_box page))
    /\ (num_columns = 2 -> 6 <= dense_paragraphs).
Proof.
  intro H. rewrite analyze_layout_complexity_pdf_run, H. cbn [bind].
  eexists. eexists. split; [reflexivity |]. split; [reflexivity |].
  destruct (existsb (fun page => 5 <? len (filter dense_text_box page)) pages) eqn:E.
  - apply existsb_exists in E. destruct E as (page & Hin & Hp). apply Z.ltb_lt in Hp.
    split; [right; reflexivity |]. split.
    + split; [intros _; exists page; split; assumption | reflexivity].
    + intros _. pose proof (len_filter_concat_ge dense_text_box pages page Hin). lia.
  - split; [left; reflexivity |]. split.
    + split; [discriminate |]. intros (page & Hin & Hp). exfalso.
      assert (C : existsb (fun page => 5 <? len (filter dense_text_box page)) pages = true).
      { apply existsb_exists. exists page. split; [exact Hin | apply Z.ltb_lt; exact Hp]. }
      congruence.
    + discriminate.
Qed.

(** The word-processor layout pass: the dense paragraphs are the
    paragraphs above 500 characters; the columns are the largest number of
    [w:col] children of a section, and 1 when no section has more than
    one. *)
Theorem docx_layout_spec (doc_path : pystr) (doc : docx_document) (log : list event) :
  docx_Document lib doc_path = Ok doc ->
  exists num_columns dense_paragraphs,
    analyze_layout_complexity_docx lib doc_path log
    = (Ok (num_columns, dense_paragraphs), log ++ [(PythonDocx, doc_path)])
    /\ dense_paragraphs = len (filter is_dense (doc_paragraphs doc))
    /\ 1 <= num_columns
    /\ (forall cols, In cols (doc_sections doc) -> len cols <= num_columns)
    /\ (num_columns = 1
        \/ exists cols, In cols (doc_sections doc) /\ len cols = num_columns).
Proof.
  intro H. rewrite analyze_layout_complexity_docx_run, H. cbn [bind].
  eexists. eexists. split; [reflexivity |]. split; [reflexivity |].
  split; [apply fold_left_max_ge |]. split.
  - intros cols Hin. apply fold_left_max_in, in_map, Hin.
  - destruct (fold_left_max_attained (map len (doc_sections doc)) 1) as [E | Hin];
      [left; exact E | right].
    apply in_map_iff in Hin. destruct Hin as (cols & E & Hin). exists cols. auto.
Qed.

(** A PDF that all three parsers read, with tables of text and empty
    cells: the report counts the tables labelled Complex over all pages,
    the images of all pages, the dense text boxes of all pages, and two
    columns when one page has more than 5 of them; the file has been opened
    three times, by pdfplumber, PyMuPDF and pdfminer in this order. *)
Theorem pdf_report (pdf_path : pystr) (tables : list (list table))
  (images : list (list Z)) (layouts : list (list lt_element)) (log : list event) :
  pdfplumber_open lib pdf_path = Ok tables ->
  fitz_open lib pdf_path = Ok images ->
  extract_pages lib pdf_path = Ok layouts ->
  existsb (fun t => existsb nonempty_list (cells t)) (List.concat tables) = false ->
  calculate_document_complexity isspace isalpha repr_list np_std_nonempty lib
    pdf_path (codepoints "pdf") log
  = (Ok (make_report
           (len (filter (labelled_complex isspace isalpha repr_list np_std_nonempty)
                   (List.concat tables)))
           (len (List.concat images))
           (if existsb (fun page => 5 <? len (filter dense_text_box page)) layouts
            then 2 else 1)
           (len (filter dense_text_box (List.concat layouts)))),
     log ++ [(Pdfplumber, pdf_path); (PyMuPDF, pdf_path); (Pdfminer, pdf_path)]).
Proof.
  intros H1 H2 H3 Hc. unfold calculate_document_complexity.
  change (pystr_eqb (codepoints "pdf") (codepoints "pdf")) with true. cbv iota.
  unfold bindM at 1 2.
  rewrite count_complex_tables_pdf_run, H1. cbn [bind].
  rewrite (count_complex_cases isspace isalpha repr_list np_std_nonempty), Hc.
  unfold bindM at 1. rewrite count_images_pdf_run, H2. cbn [bind].
  unfold bindM at 1. rewrite analyze_layout_complexity_pdf_run, H3. cbn [bind].
  unfold ret. cbn [fst snd]. rewrite <- !app_assoc. reflexivity.
Qed.

Lemma text_grids_no_list (tables : list (list (list pystr))) :
  existsb (fun t => existsb nonempty_list (cells t)) (map text_grid tables) = false.
Proof.
  induction tables as [| rows tables IH]; [reflexivity |].
  cbn [map existsb]. rewrite text_grid_no_list, IH. reflexivity.
Qed.

(** A word-processor document that python-docx reads: the analysis
    always yields a report, with the tables labelled Complex, the inline
    shapes, the widest section as the columns and the dense paragraphs as
    counted (not reset, unlike a slide deck); the file has been opened three
    times. *)
Theorem docx_report (doc_path : pystr) (doc : docx_document) (log : list event) :
  docx_Document lib doc_path = Ok doc ->
  calculate_document_complexity isspace isalpha repr_list np_std_nonempty lib
    doc_path (codepoints "docx") log
  = (Ok (make_report
           (len (filter (labelled_complex isspace isalpha repr_list np_std_nonempty)
                   (map text_grid (doc_tables doc))))
           (len (doc_inline_shapes doc))
           (fold_left Z.max (map len (doc_sections doc)) 1)
           (len (filter is_dense (doc_paragraphs doc)))),
     log ++ [(PythonDocx, doc_path); (PythonDocx, doc_path); (PythonDocx, doc_path)]).
Proof.
  intro H. unfold calculate_document_complexity.
  change (pystr_eqb (codepoints "docx") (codepoints "pdf")) with false.
  change (pystr_eqb (codepoints "docx") (codepoints "docx")) with true. cbv iota.
  unfold bindM at 1 2.
  rewrite count_tables_docx_run, H. cbn [bind].
  rewrite (count_complex_cases isspace isalpha repr_list np_std_nonempty), text_grids_no_list.
  unfold bindM at 1. rewrite count_images_docx_run, H. cbn [bind].
  unfold bindM at 1. rewrite analyze_layout_complexity_docx_run, H. cbn [bind].
  unfold ret. cbn [fst snd]. rewrite <- !app_assoc. reflexivity.
Qed.

(** A PDF on which a later parser fails: the tables already counted are
    dropped, the exception of PyMuPDF or of pdfminer reaches the caller,
    and the log shows the calls made up to the failing one. *)
Theorem pdf_later_parser_failure (pdf_path : pystr) (tables : list (list table))
  (e : exn) (log : list event) :
  pdfplumber_open lib pdf_path = Ok tables ->
  existsb (fun t => existsb nonempty_list (cells t)) (List.concat tables) = false ->
  (fitz_open lib pdf_path = Err e ->
   calculate_document_complexity isspace isalpha repr_list np_std_nonempty lib
     pdf_path (codepoints "pdf") log
   = (Err e, log ++ [(Pdfplumber, pdf_path); (PyMuPDF, pdf_path)]))
  /\ (forall images,
        fitz_open lib pdf_path = Ok images ->
        extract_pages lib pdf_path = Err e ->
        calculate_document_complexity isspace isalpha repr_list np_std_nonempty lib
          pdf_path (codepoints "pdf") log
        = (Err e, log ++ [(Pdfplumber, pdf_path); (PyMuPDF, pdf_path);
                          (Pdfminer, pdf_path)])).
Proof.
  intros H1 Hc. split; [intro H2 | intros images H2 H3].
  all: unfold calculate_document_complexity.
  all: change (pystr_eqb (codepoints "pdf") (codepoints "pdf")) with true; cbv iota.
  all: unfold bindM at 1 2.
  all: rewrite count_complex_tables_pdf_run, H1; cbn [bind].
  all: rewrite (count_complex_cases isspace isalpha repr_list np_std_nonempty), Hc.
  all: unfold bindM at 1; rewrite count_images_pdf_run, H2; cbn [bind].
  - rewrite <- !app_assoc. reflexivity.
  - unfold bindM at 1. rewrite analyze_layout_complexity_pdf_run, H3. cbn [bind].
    rewrite <- !app_assoc. reflexivity.
Qed.

(** From an equation between a returned pair and [(Ok rep, log')]: the
    report and the log. *)
Ltac returned H :=
  let Hr := fresh "Hr" in
  let Hl := fresh "Hl" in
  let Hrep := fresh "Hrep" in
  pose proof (f_equal fst H) as Hr; pose proof (f_equal snd H) as Hl;
  cbn [fst snd] in Hr, Hl; injection Hr as Hrep; clear H; subst.

Lemma count_if_bounds {A : Type} (p : A -> result bool) (xs : list A) (n : Z) :
  count_if p xs = Ok n -> 0 <= n <= len xs.
Proof.
  revert n. induction xs as [| x xs IH]; intros n H.
  - injection H as <-. cbn. lia.
  - cbn [count_if] in H. destruct (p x) as [b |]; [| discriminate]. cbn [bind] in H.
    destruct (count_if p xs) as [m |]; [| discriminate]. cbn [bind] in H.
    injection H as <-. specialize (IH m eq_refl). rewrite len_cons. destruct b; lia.
Qed.

Lemma count_tables_pptx_run (ppt_path : pystr) (log : list event) :
  exists r,
    count_tables_pptx isspace isalpha repr_list np_std_nonempty lib ppt_path log
    = (r, log ++ [(PythonPptx, ppt_path)])
    /\ forall n, r = Ok n -> 0 <= n.
Proof.
  unfold count_tables_pptx, bindM, parse, lift.
  destruct (pptx_Presentation lib ppt_path) as [ppt |].
  - eexists. split; [reflexivity |]. intros n H. apply count_if_bounds in H. lia.
  - eexists. split; [reflexivity |]. discriminate.
Qed.

Lemma report_of_measurements (t i c d : Z) :
  0 <= t -> 0 <= i -> 1 <= c -> 0 <= d ->
  let rep := make_report t i c d in
  rep = make_report (complex_tables_found rep) (images_found rep)
          (columns_detected rep) (dense_paragraphs_reported rep)
  /\ 0 <= complex_tables_found rep /\ 0 <= images_found rep
  /\ 1 <= columns_detected rep /\ 0 <= dense_paragraphs_reported rep
  /\ 0 <= final_complexity_score rep.
Proof.
  intros Ht Hi Hc Hd. cbv zeta.
  cbn [make_report complex_tables_found images_found columns_detected
       dense_paragraphs_reported final_complexity_score].
  repeat split; try assumption.
  unfold final_score, table_score, layout_score, image_score.
  destruct ((1 <? c) || (0 <? d)); lia.
Qed.

(** Whatever the file type and the parsers: a report that is returned is
    the report of its own four measurements (the score and the level are
    those of lines 105 to 109), the counts are non-negative, there is at
    least one column, and the document has been opened exactly three
    times. *)
Theorem report_invariants (file_path file_type : pystr) (log log' : list event)
  (rep : report) :
  calculate_document_complexity isspace isalpha repr_list np_std_nonempty lib
    file_path file_type log = (Ok rep, log') ->
  rep = make_report (complex_tables_found rep) (images_found rep)
          (columns_detected rep) (dense_paragraphs_reported rep)
  /\ 0 <= complex_tables_found rep /\ 0 <= images_found rep
  /\ 1 <= columns_detected rep /\ 0 <= dense_paragraphs_reported rep
  /\ 0 <= final_complexity_score rep
  /\ exists p1 p2 p3,
       log' = log ++ [(p1, file_path); (p2, file_path); (p3, file_path)].
Proof.
  unfold calculate_document_complexity. intro H.
  destruct (pystr_eqb file_type (codepoints "pdf")).
  { unfold bindM at 1 2 in H. rewrite count_complex_tables_pdf_run in H.
    destruct (pdfplumber_open lib file_path) as [tables |]; cbn [bind] in H;
      [| discriminate].
    destruct (count_complex isspace isalpha repr_list np_std_nonempty (List.concat tables))
      as [n |] eqn:En; [| discriminate].
    apply count_if_bounds in En.
    unfold bindM at 1 in H. rewrite count_images_pdf_run in H.
    destruct (fitz_open lib file_path) as [images |]; cbn [bind] in H; [| discriminate].
    unfold bindM at 1 in H. rewrite analyze_layout_complexity_pdf_run in H.
    destruct (extract_pages lib file_path) as [layouts |]; cbn [bind] in H;
      [| discriminate].
    unfold ret in H. cbn [fst snd] in H. returned H.
    rewrite <- !app_assoc.
    repeat (split; [apply report_of_measurements; try apply len_nonneg; try lia;
                    destruct (existsb _ layouts); lia |]).
    eexists. eexists. eexists. reflexivity. }
  destruct (pystr_eqb file_type (codepoints "docx")).
  { unfold bindM at 1 2 in H. rewrite count_tables_docx_run in H.
    destruct (docx_Document lib file_path) as [doc |] eqn:Ed; cbn [bind] in H;
      [| discriminate].
    destruct (count_complex isspace isalpha repr_list np_std_nonempty
                (map text_grid (doc_tables doc))) as [n |] eqn:En; [| discriminate].
    apply count_if_bounds in En.
    unfold bindM at 1 in H. rewrite count_images_docx_run, Ed in H. cbn [bind] in H.
    unfold bindM at 1 in H. rewrite analyze_layout_complexity_docx_run, Ed in H.
    cbn [bind] in H. unfold ret in H. cbn [fst snd] in H. returned H.
    rewrite <- !app_assoc.
    pose proof (fold_left_max_ge (map len (doc_sections doc)) 1).
    repeat (split; [apply report_of_measurements; try apply len_nonneg; lia |]).
    eexists. eexists. eexists. reflexivity. }
  destruct (pystr_eqb file_type (codepoints "pptx")).
  { unfold bindM at 1 2 in H.
    destruct (count_tables_pptx_run file_path log) as (r & Er & Hr). rewrite Er in H.
    destruct r as [n |]; [| discriminate]. specialize (Hr n eq_refl).
    unfold bindM at 1 in H. unfold count_images_pptx, bindM, parse, ret in H.
    unfold analyze_layout_complexity_pptx, bindM, parse, ret in H.
    destruct (pptx_Presentation lib file_path) as [ppt |]; [| discriminate].
    cbn [fst snd] in H. returned H.
    rewrite <- !app_assoc.
    repeat (split; [apply report_of_measurements; try apply len_nonneg; try lia;
                    destruct (raw_dense_paragraphs_pptx ppt <? 5); lia |]).
    eexists. eexists. eexists. reflexivity. }
  unfold bindM, ret, raise in H. discriminate.
Qed.

End DocumentProperties.

(* ================================================================== *)
(** ** The further properties on concrete inputs *)

Lemma verbosity_witness :
  nested_table unicode_isspace repr_ascii sixteen_words = true
  /\ exists c, In c (cells sixteen_words)
               /\ (isinstance_list c = true \/ exists s, c = CStr s /\ 31 <= len s).
Proof.
  split; [vm_compute; reflexivity |].
  apply (verbosity_needs_31_characters unicode_isspace repr_ascii sixteen_words).
  vm_compute. reflexivity.
Defined.

Lemma label_decided_witness :
  classify two_headers_with_none
  = Ok (fadd (float_lit 4 10) (float_lit 3 10), Complex)
  /\ exists ratio dense,
       merged_cell_ratio unicode_isspace two_headers_with_none = Ok ratio
       /\ high_density unicode_isspace repr_ascii two_headers_with_none = Ok dense
       /\ Complex
          = label_of_signals (fgt ratio (float_lit 2 10))
              (row_length_variation np_std_sequential two_headers_with_none)
              (nested_table unicode_isspace repr_ascii two_headers_with_none)
              (1 <? header_count ascii_isalpha two_headers_with_none)
              dense.
Proof.
  assert (E : classify two_headers_with_none
              = Ok (fadd (float_lit 4 10) (float_lit 3 10), Complex))
    by (vm_compute; reflexivity).
  split; [exact E |].
  exact (label_decided_by_signals unicode_isspace ascii_isalpha repr_ascii
           np_std_sequential two_headers_with_none _ _ E).
Defined.

Lemma ratio_interval_witness :
  merged_cell_ratio unicode_isspace two_blank_in_five = Ok (float_lit 4 10)
  /\ exists q, float_lit 4 10 = Fin q /\ (0 <= q)%Q /\ (q <= 1)%Q.
Proof.
  assert (E : merged_cell_ratio unicode_isspace two_blank_in_five = Ok (float_lit 4 10))
    by (vm_compute; reflexivity).
  split; [exact E |].
  exact (merged_cell_ratio_in_unit_interval unicode_isspace two_blank_in_five _ E).
Defined.

Lemma blank_grid_witness :
  merged_cell_ratio unicode_isspace blank_grid = Ok (Fin 1%Q)
  /\ header_count ascii_isalpha blank_grid = Z.min 3 (len blank_grid)
  /\ exists s, classify blank_grid = Ok (s, Complex).
Proof.
  apply (blank_grid_is_complex unicode_isspace ascii_isalpha repr_ascii
           np_std_sequential blank_grid 3).
  - vm_compute. discriminate.
  - lia.
  - repeat constructor.
  - repeat constructor.
Defined.

Lemma pdf_layout_witness :
  exists num_columns dense_paragraphs,
    analyze_layout_complexity_pdf office_parsers (codepoints "paper.pdf") []
    = (Ok (num_columns, dense_paragraphs), [] ++ [(Pdfminer, codepoints "paper.pdf")])
    /\ dense_paragraphs = len (filter dense_text_box (List.concat demo_pdf_layout))
    /\ (num_columns = 1 \/ num_columns = 2)
    /\ (num_columns = 2 <->
        exists page, In page demo_pdf_layout /\ 5 < len (filter dense_text_box page))
    /\ (num_columns = 2 -> 6 <= dense_paragraphs).
Proof.
  apply (pdf_layout_spec office_parsers (codepoints "paper.pdf") demo_pdf_layout []).
  reflexivity.
Defined.

Lemma docx_layout_witness :
  exists num_columns dense_paragraphs,
    analyze_layout_complexity_docx office_parsers (codepoints "memo.docx") []
    = (Ok (num_columns, dense_paragraphs), [] ++ [(PythonDocx, codepoints "memo.docx")])
    /\ dense_paragraphs = len (filter is_dense (doc_paragraphs demo_docx))
    /\ 1 <= num_columns
    /\ (forall cols, In cols (doc_sections demo_docx) -> len cols <= num_columns)
    /\ (num_columns = 1
        \/ exists cols, In cols (doc_sections demo_docx) /\ len cols = num_columns).
Proof.
  apply (docx_layout_spec office_parsers (codepoints "memo.docx") demo_docx []).
  reflexivity.
Defined.

Lemma pdf_report_witness :
  analyse_office "paper.pdf" "pdf"
  = (Ok (make_report 1 3 2 7),
     [(Pdfplumber, codepoints "paper.pdf"); (PyMuPDF, codepoints "paper.pdf");
      (Pdfminer, codepoints "paper.pdf")]).
Proof.
  unfold analyse_office.
  rewrite (pdf_report unicode_isspace ascii_isalpha repr_ascii np_std_sequential
             office_parsers (codepoints "paper.pdf") demo_pdf_tables demo_pdf_images
             demo_pdf_layout []) by reflexivity.
  vm_compute. reflexivity.
Defined.

Lemma docx_report_witness :
  analyse_office "memo.docx" "docx"
  = (Ok (make_report 0 2 3 1),
     [(PythonDocx, codepoints "memo.docx"); (PythonDocx, codepoints "memo.docx");
      (PythonDocx, codepoints "memo.docx")]).
Proof.
  unfold analyse_office.
  rewrite (docx_report unicode_isspace ascii_isalpha repr_ascii np_std_sequential
             office_parsers (codepoints "memo.docx") demo_docx []) by reflexivity.
  vm_compute. reflexivity.
Defined.

Lemma pdf_later_failure_witness :
  calculate_document_complexity unicode_isspace ascii_isalpha repr_ascii
    np_std_sequential image_failing_parsers (codepoints "paper.pdf") (codepoints "pdf") []
  = (Err (OtherError "FileDataError"),
     [] ++ [(Pdfplumber, codepoints "paper.pdf"); (PyMuPDF, codepoints "paper.pdf")]).
Proof.
  destruct (pdf_later_parser_failure unicode_isspace ascii_isalpha repr_ascii
              np_std_sequential image_failing_parsers (codepoints "paper.pdf")
              demo_pdf_tables (OtherError "FileDataError") [] eq_refl eq_refl)
    as [Images _].
  apply Images. reflexivity.
Defined.

Lemma report_invariants_witness :
  let rep := make_report 1 3 2 7 in
  rep = make_report (complex_tables_found rep) (images_found rep)
          (columns_detected rep) (dense_paragraphs_reported rep)
  /\ 0 <= complex_tables_found rep /\ 0 <= images_found rep
  /\ 1 <= columns_detected rep /\ 0 <= dense_paragraphs_reported rep
  /\ 0 <= final_complexity_score rep
  /\ exists p1 p2 p3,
       [(Pdfplumber, codepoints "paper.pdf"); (PyMuPDF, codepoints "paper.pdf");
        (Pdfminer, codepoints "paper.pdf")]
       = [] ++ [(p1, codepoints "paper.pdf"); (p2, codepoints "paper.pdf");
                (p3, codepoints "paper.pdf")].
Proof.
  apply (report_invariants unicode_isspace ascii_isalpha repr_ascii np_std_sequential
           office_parsers (codepoints "paper.pdf") (codepoints "pdf") []).
  vm_compute. reflexivity.
Defined.
